(** * Request handlers of the library catalogue: a shallow embedding

    The three controllers (genre, book, book instance) are embedded as
    functions over an explicit world: the document store the handlers read
    and write, and the log of the calls they make on the response object
    ([res.redirect], [res.render]) and on [next].  A handler that calls
    [res.redirect] and then [res.render] leaves both calls in the log, in
    that order.

    What lies outside the controllers is kept abstract or modelled from the
    specification:
    - the string functions of the validation library, the collation of the
      data layer and the [url] virtuals of the models are the fields of the
      class [Lib]; every theorem holds for every instance;
    - the documents and the storage interface (find by id, save, update by
      id, delete by id) are modelled over finite maps from ids to documents.
      Ids are strings, taken as well formed: the cast of a string to an id
      is not modelled;
    - a string is the sequence of its bytes, as a literal "..." is read; the
      number of characters the validator counts in it is the library's
      [char_count]. *)

From Stdlib Require Import ZArith Ascii String.
From stdpp Require Import gmap strings list fin_maps sorting pretty.

(** ** Values and documents *)

(** An id as the requests carry it, and a date as an instant in
    milliseconds. *)
Definition ObjectId := string.
Definition Date := Z.

(** A scalar field of [req.body]: absent, a string, or (after [toDate]) a
    date or [null]. *)
Inductive FieldValue :=
| Undefined
| Str (s : string)
| DateV (d : Date)
| Null.

(** The [genre] field of the book form as the body parser leaves it. *)
Inductive GenreField :=
| GUndefined
| GScalar (v : string)
| GArray (l : list string).

(** Modelled from the spec: the four entities of the data model, whose
    schemas are not among the sources.  References are ids. *)
Record Genre := { genre_name : string }.

Record Author := {
  first_name : string;
  family_name : string;
  date_of_birth : option Date;
  date_of_death : option Date }.

Record Book := {
  book_title : string;
  book_author : ObjectId;
  book_summary : string;
  book_isbn : string;
  book_genre : list ObjectId }.

Record BookInstance := {
  bi_book : ObjectId;
  bi_imprint : string;
  bi_status : string;
  bi_due_back : option Date }.

(** A document is its [_id] together with its fields. *)
Definition Doc (A : Type) : Type := ObjectId * A.

#[global] Instance FieldValue_eq_dec : EqDecision FieldValue.
Proof. solve_decision. Defined.
#[global] Instance GenreField_eq_dec : EqDecision GenreField.
Proof. solve_decision. Defined.
#[global] Instance Genre_eq_dec : EqDecision Genre.
Proof. solve_decision. Defined.
#[global] Instance Author_eq_dec : EqDecision Author.
Proof. solve_decision. Defined.
#[global] Instance Book_eq_dec : EqDecision Book.
Proof. solve_decision. Defined.
#[global] Instance BookInstance_eq_dec : EqDecision BookInstance.
Proof. solve_decision. Defined.

(** ** The libraries the controllers call *)

Class Lib := {
  (** validator.js sanitizers and validators *)
  trim : string → string;
  escape : string → string;
  isISO8601 : string → bool;
  toDate : string → option Date;
  toISOString : Date → string;
  (** the number of characters [isLength] counts in a string *)
  char_count : string → nat;
  char_count_empty : char_count EmptyString = 0;
  (** equality of names under the collation [{ locale: "en", strength: 2 }] *)
  collation_eq : string → string → bool;
  (** the [url] virtual of each model *)
  genre_url : ObjectId → string;
  book_url : ObjectId → string;
  bookinstance_url : ObjectId → string }.

(** ** Validation chains (express-validator)

    A chain [body(path, msg).item1().item2()...] runs its items in order on
    the current value of the field.  A sanitizer replaces the value by the
    sanitized string form of it; a validator leaves the value and records an
    error when it fails.  With [optional({ values: "falsy" })] an item is
    skipped while the current value is falsy. *)

Inductive ChainItem :=
| Trim
| IsLength (min : nat)
| Escape
| IsISO8601
| ToDate.

Record ValidationChain := body {
  chain_path : string;
  chain_msg : string;
  chain_optional : bool;
  chain_stack : list ChainItem }.

Record ValidationError := {
  err_path : string;
  err_msg : string;
  err_value : FieldValue }.

#[global] Instance ValidationError_eq_dec : EqDecision ValidationError.
Proof. solve_decision. Defined.

Definition falsy (v : FieldValue) : bool :=
  match v with
  | Undefined | Null => true
  | Str s => bool_decide (s = EmptyString)
  | DateV _ => false
  end.

Section Validation.
Context `{L : Lib}.

Definition toString (v : FieldValue) : string :=
  match v with
  | Str s => s
  | DateV d => toISOString d
  | Undefined | Null => EmptyString
  end.

Definition run_item (c : ValidationChain) (it : ChainItem) (v : FieldValue)
  : FieldValue * list ValidationError :=
  let failed := [{| err_path := chain_path c; err_msg := chain_msg c; err_value := v |}] in
  match it with
  | Trim => (Str (trim (toString v)), [])
  | Escape => (Str (escape (toString v)), [])
  | ToDate => (from_option DateV Null (toDate (toString v)), [])
  | IsLength min =>
      (v, if (min <=? char_count (toString v))%nat then [] else failed)
  | IsISO8601 => (v, if isISO8601 (toString v) then [] else failed)
  end.

Fixpoint run_stack (c : ValidationChain) (stack : list ChainItem) (v : FieldValue)
  : FieldValue * list ValidationError :=
  match stack with
  | [] => (v, [])
  | it :: rest =>
      if chain_optional c && falsy v then run_stack c rest v
      else
        let '(v1, e1) := run_item c it v in
        let '(v2, e2) := run_stack c rest v1 in
        (v2, e1 ++ e2)
  end.

Definition run (c : ValidationChain) (v : FieldValue)
  : FieldValue * list ValidationError :=
  run_stack c (chain_stack c) v.

(** A wildcard chain ([body("genre.*")]) runs on every element. *)
Definition run_each (c : ValidationChain) (l : list string)
  : list string * list ValidationError :=
  let rs := map (λ x, run c (Str x)) l in
  (map (λ r, toString (fst r)) rs, concat (map snd rs)).

End Validation.

(** ** The store, the response log and the handler monad *)

Record Store := {
  genres : gmap ObjectId Genre;
  books : gmap ObjectId Book;
  bookinstances : gmap ObjectId BookInstance;
  authors : gmap ObjectId Author }.

(** What a handler can throw; [asyncHandler] passes it to [next]. *)
Inductive Exn :=
| DuplicateKey (id : ObjectId)
| TypeError (what : string)
| HeadersSent.

(** Documents with their references resolved by [populate]. *)
Record PopulatedBook := {
  pb_doc : Doc Book;
  pb_author : option (Doc Author);
  pb_genre : list (Doc Genre) }.

Record PopulatedBookInstance := {
  pbi_doc : Doc BookInstance;
  pbi_book : option (Doc Book) }.

(** The values handed to the views. *)
Inductive Datum :=
| VText (s : string)
| VId (id : ObjectId)
| VErrors (errors : list ValidationError)
| VGenre (g : option (Doc Genre))
| VGenres (l : list (Doc Genre * bool))
| VAuthors (l : list (Doc Author))
| VBook (b : Doc Book)
| VPopulatedBook (b : option PopulatedBook)
| VBookTitles (l : list (ObjectId * string))
| VBookSummaries (l : list (ObjectId * (string * string)))
| VBookInstance (i : Doc BookInstance)
| VPopulatedBookInstance (i : option PopulatedBookInstance)
| VBookInstances (l : list (Doc BookInstance)).

Definition Locals := list (string * Datum).

Inductive Call :=
| Redirect (url : string)
| Render (view : string) (locals : Locals)
| Next (e : Exn).

Record World := {
  db : Store;
  calls : list Call }.

Inductive Outcome (A : Type) :=
| Ok (a : A)
| Throw (e : Exn).
Arguments Ok {A} a.
Arguments Throw {A} e.

Definition Handler (A : Type) : Type := World → Outcome A * World.

#[global] Instance Handler_ret : MRet Handler := λ A a w, (Ok a, w).
#[global] Instance Handler_bind : MBind Handler := λ A B f m w,
  match m w with
  | (Ok a, w1) => f a w1
  | (Throw e, w1) => (Throw e, w1)
  end.

Definition throw {A} (e : Exn) : Handler A := λ w, (Throw e, w).

Definition log (c : Call) : Handler unit :=
  λ w, (Ok (), {| db := db w; calls := calls w ++ [c] |}).

(** A response is sent by the first [res.redirect] or [res.render]. *)
Definition headers_sent (cs : list Call) : bool :=
  existsb (λ c, match c with
                | Redirect _ | Render _ _ => true
                | Next _ => false
                end) cs.

(** [res.redirect] sets the headers of the response: once a response was
    sent the call throws. *)
Definition res_redirect (url : string) : Handler unit :=
  λ w, (if headers_sent (calls w) then Throw HeadersSent else Ok (),
        {| db := db w; calls := calls w ++ [Redirect url] |}).
Definition res_render (view : string) (locals : Locals) : Handler unit :=
  log (Render view locals).

(** [asyncHandler(fn)]: a rejection of [fn] is passed to [next]. *)
Definition asyncHandler (fn : Handler unit) (w : World) : World :=
  match fn w with
  | (Ok _, w1) => w1
  | (Throw e, w1) => {| db := db w1; calls := calls w1 ++ [Next e] |}
  end.

(** A model gives access to its collection in the store. *)
Record Model (A : Type) := {
  collection : Store → gmap ObjectId A;
  with_collection : gmap ObjectId A → Store → Store }.
Arguments collection {A} _ _.
Arguments with_collection {A} _ _ _.

Definition GenreModel : Model Genre := {|
  collection := genres;
  with_collection c st :=
    {| genres := c; books := books st;
       bookinstances := bookinstances st; authors := authors st |} |}.

Definition BookModel : Model Book := {|
  collection := books;
  with_collection c st :=
    {| genres := genres st; books := c;
       bookinstances := bookinstances st; authors := authors st |} |}.

Definition BookInstanceModel : Model BookInstance := {|
  collection := bookinstances;
  with_collection c st :=
    {| genres := genres st; books := books st;
       bookinstances := c; authors := authors st |} |}.

Definition AuthorModel : Model Author := {|
  collection := authors;
  with_collection c st :=
    {| genres := genres st; books := books st;
       bookinstances := bookinstances st; authors := c |} |}.

Section Storage.
Context {A : Type} (M : Model A).

Definition read {B} (f : gmap ObjectId A → B) : Handler B :=
  λ w, (Ok (f (collection M (db w))), w).

Definition write (f : gmap ObjectId A → gmap ObjectId A) : Handler unit :=
  λ w, (Ok (), {| db := with_collection M (f (collection M (db w))) (db w);
                  calls := calls w |}).

(** Modelled from the spec: the storage interface, whose models are not
    among the sources.  [find(filter)] yields the matching documents. *)
Definition find (filter : Doc A → bool) : Handler (list (Doc A)) :=
  read (λ c, List.filter filter (map_to_list c)).

(** Modelled from the spec: [find_by_id(id)] yields the entity or absent. *)
Definition findById (id : ObjectId) : Handler (option (Doc A)) :=
  read (λ c, pair id <$> c !! id).

(** Modelled from the spec: [find_one] yields the first document that
    matches the filter, if any. *)
Definition findOne (filter : Doc A → bool) : Handler (option (Doc A)) :=
  read (λ c, head (List.filter filter (map_to_list c))).

(** Modelled from the spec: [save(entity)] stores a new document under its
    id; the store holds one document per id and rejects a second one. *)
Definition save (d : Doc A) : Handler unit :=
  c ← read id;
  match c !! d.1 with
  | Some _ => throw (DuplicateKey d.1)
  | None => write (insert d.1 d.2)
  end.

(** Modelled from the spec: [find_by_id_and_update(id, entity)] replaces
    the fields of the document stored under [id] and yields the document
    found, if any; nothing is stored when there is none. *)
Definition findByIdAndUpdate (id : ObjectId) (d : Doc A) : Handler (option (Doc A)) :=
  found ← findById id;
  match found with
  | Some _ => write (insert id d.2);; mret found
  | None => mret None
  end.

(** Modelled from the spec: [find_by_id_and_delete(id)] removes the
    document stored under [id], if any. *)
Definition findByIdAndDelete (id : ObjectId) : Handler unit :=
  write (delete id).

(** [.sort({ field: 1 })]: ascending in the order of the strings. *)
Definition field_le (field : A → string) (x y : Doc A) : Prop :=
  String.leb (field x.2) (field y.2) = true.

#[global] Instance field_le_dec field x y : Decision (field_le field x y).
Proof. unfold field_le. apply _. Defined.

Definition sort_asc (field : A → string) (l : list (Doc A)) : list (Doc A) :=
  merge_sort (field_le field) l.

End Storage.

(** [populate]: a reference is replaced by the document it names. *)
Definition populate_book (st : Store) (d : Doc Book) : PopulatedBook := {|
  pb_doc := d;
  pb_author := pair (book_author d.2) <$> authors st !! book_author d.2;
  pb_genre := omap (λ g, pair g <$> genres st !! g) (book_genre d.2) |}.

Definition populate_bookinstance (st : Store) (d : Doc BookInstance)
  : PopulatedBookInstance := {|
  pbi_doc := d;
  pbi_book := pair (bi_book d.2) <$> books st !! bi_book d.2 |}.

Definition populate_with {A B} (f : Store → A → B) (o : option A) : Handler (option B) :=
  λ w, (Ok (f (db w) <$> o), w).

(** ** Requests *)

Record Request (B : Type) := {
  params_id : ObjectId;
  req_body : B }.
Arguments params_id {B} _.
Arguments req_body {B} _.

(** The body of the confirmation forms: the id in the hidden field. *)
Record DeleteBody := { body_id : ObjectId }.

Record GenreBody := { name : FieldValue }.

Record BookBody := {
  title : FieldValue;
  author : FieldValue;
  summary : FieldValue;
  isbn : FieldValue;
  genre : GenreField }.

Record BookInstanceBody := {
  book : FieldValue;
  imprint : FieldValue;
  status : FieldValue;
  due_back : FieldValue }.

(** Modelled from the spec: the model constructors, whose schemas are not
    among the sources, take the sanitized fields at the types of the data
    model: a string or a reference keeps the string, an optional date
    keeps a date and is unset otherwise. *)
Definition cast_string (v : FieldValue) : string :=
  match v with
  | Str s => s
  | _ => EmptyString
  end.

Definition cast_date (v : FieldValue) : option Date :=
  match v with
  | DateV d => Some d
  | _ => None
  end.

Definition isEmpty (errors : list ValidationError) : bool :=
  match errors with
  | [] => true
  | _ => false
  end.

(** ** controllers/genreController.js *)

Section genreController.
Context `{L : Lib}.

Definition genre_name_chain : ValidationChain :=
  body "name" "ジャンル名は3文字以上必要です" false [Trim; IsLength 3; Escape].

Definition genre_validators (req : Request GenreBody)
  : Request GenreBody * list ValidationError :=
  let '(n, errors) := run genre_name_chain (name (req_body req)) in
  ({| params_id := params_id req; req_body := {| name := n |} |}, errors).

(** [oid] is the [_id] that [new Genre(...)] gives the document. *)
Definition genre_create_post (oid : ObjectId) (req0 : Request GenreBody)
  : World → World :=
  let '(req, errors) := genre_validators req0 in
  asyncHandler (
    let genre : Doc Genre :=
      (oid, {| genre_name := cast_string (name (req_body req)) |}) in
    if negb (isEmpty errors) then
      res_render "genre_form"
        [("title", VText "ジャンル作成");
         ("genre", VGenre (Some genre));
         ("errors", VErrors errors)]
    else
      genreExists ← findOne GenreModel
        (λ g, collation_eq (genre_name g.2) (cast_string (name (req_body req))));
      match genreExists with
      | Some existing => res_redirect (genre_url existing.1)
      | None =>
          save GenreModel genre;;
          res_redirect (genre_url genre.1)
      end).

Definition books_in_genre (id : ObjectId) : Handler (list (ObjectId * (string * string))) :=
  l ← find BookModel (λ b, bool_decide (id ∈ book_genre b.2));
  mret (map (λ b : Doc Book, (b.1, (book_title b.2, book_summary b.2))) l).

Definition genre_delete_get (req : Request unit) : World → World :=
  asyncHandler (
    genre ← findById GenreModel (params_id req);
    booksInGenre ← books_in_genre (params_id req);
    (if bool_decide (genre = None) then res_redirect "/catalog/genres"
     else mret ());;
    res_render "genre_delete"
      [("title", VText "ジャンル削除");
       ("genre", VGenre genre);
       ("genre_books", VBookSummaries booksInGenre)]).

Definition genre_delete_post (req : Request DeleteBody) : World → World :=
  asyncHandler (
    genre ← findById GenreModel (params_id req);
    booksInGenre ← books_in_genre (params_id req);
    if (0 <? length booksInGenre)%nat then
      res_render "genre_delete"
        [("title", VText "ジャンル削除");
         ("genre", VGenre genre);
         ("genre_books", VBookSummaries booksInGenre)]
    else
      findByIdAndDelete GenreModel (body_id (req_body req));;
      res_redirect "/catalog/genres").

Definition genre_update_post (req0 : Request GenreBody) : World → World :=
  let '(req, errors) := genre_validators req0 in
  asyncHandler (
    let genre : Doc Genre :=
      (params_id req, {| genre_name := cast_string (name (req_body req)) |}) in
    if negb (isEmpty errors) then
      res_render "genre_form"
        [("title", VText "ジャンル更新");
         ("genre", VGenre (Some genre));
         ("errors", VErrors errors)]
    else
      findByIdAndUpdate GenreModel (params_id req) genre;;
      res_redirect (genre_url genre.1)).

End genreController.

(** ** The book instance controller *)

Section bookinstanceController.
Context `{L : Lib}.

Definition bookinstance_validators (req : Request BookInstanceBody)
  : Request BookInstanceBody * list ValidationError :=
  let b := req_body req in
  let '(v1, e1) :=
    run (body "book" "書籍を指定してください" false [Trim; IsLength 1; Escape]) (book b) in
  let '(v2, e2) :=
    run (body "imprint" "出版情報を指定してください" false [Trim; IsLength 1; Escape])
        (imprint b) in
  let '(v3, e3) := run (body "status" "Invalid value" false [Escape]) (status b) in
  let '(v4, e4) :=
    run (body "due_back" "無効な日付形式です" true [IsISO8601; ToDate]) (due_back b) in
  ({| params_id := params_id req;
      req_body := {| book := v1; imprint := v2; status := v3; due_back := v4 |} |},
   e1 ++ e2 ++ e3 ++ e4).

Definition new_BookInstance (id : ObjectId) (b : BookInstanceBody) : Doc BookInstance :=
  (id, {| bi_book := cast_string (book b);
          bi_imprint := cast_string (imprint b);
          bi_status := cast_string (status b);
          bi_due_back := cast_date (due_back b) |}).

Definition book_titles (l : list (Doc Book)) : list (ObjectId * string) :=
  map (λ b : Doc Book, (b.1, book_title b.2)) l.

(** [oid] is the [_id] that [new BookInstance(...)] gives the document. *)
Definition bookinstance_create_post (oid : ObjectId) (req0 : Request BookInstanceBody)
  : World → World :=
  let '(req, errors) := bookinstance_validators req0 in
  asyncHandler (
    let bookInstance := new_BookInstance oid (req_body req) in
    if negb (isEmpty errors) then
      allBooks ← find BookModel (λ _, true);
      res_render "bookinstance_form"
        [("title", VText "資料作成");
         ("book_list", VBookTitles (book_titles (sort_asc book_title allBooks)));
         ("selected_book", VId (bi_book bookInstance.2));
         ("errors", VErrors errors);
         ("bookinstance", VBookInstance bookInstance)]
    else
      save BookInstanceModel bookInstance;;
      res_redirect (bookinstance_url bookInstance.1)).

Definition bookinstance_delete_get (req : Request unit) : World → World :=
  asyncHandler (
    bookInstance ← findById BookInstanceModel (params_id req)
                     ≫= populate_with populate_bookinstance;
    (if bool_decide (bookInstance = None) then res_redirect "/catalog/bookinstances"
     else mret ());;
    res_render "bookinstance_delete"
      [("title", VText "資料削除");
       ("bookinstance", VPopulatedBookInstance bookInstance)]).

Definition bookinstance_delete_post (req : Request DeleteBody) : World → World :=
  asyncHandler (
    findByIdAndDelete BookInstanceModel (body_id (req_body req));;
    res_redirect "/catalog/bookinstances").

Definition bookinstance_update_post (req0 : Request BookInstanceBody)
  : World → World :=
  let '(req, errors) := bookinstance_validators req0 in
  asyncHandler (
    let bookInstance := new_BookInstance (params_id req) (req_body req) in
    if negb (isEmpty errors) then
      allBooks ← find BookModel (λ _, true);
      res_render "bookinstance_form"
        [("title", VText "資料更新");
         ("book_list", VBookTitles (book_titles allBooks));
         ("selected_book", VId (bi_book bookInstance.2));
         ("errors", VErrors errors);
         ("bookinstance", VBookInstance bookInstance)]
    else
      findByIdAndUpdate BookInstanceModel (params_id req) bookInstance;;
      res_redirect (bookinstance_url bookInstance.1)).

End bookinstanceController.

(** ** The book controller *)

Section bookController.
Context `{L : Lib}.

Definition isArray (g : GenreField) : bool :=
  match g with
  | GArray _ => true
  | _ => false
  end.

(** The first middleware of [book_create_post] and [book_update_post]. *)
Definition normalize_genre (req : Request BookBody) : Request BookBody :=
  let b := req_body req in
  if negb (isArray (genre b)) then
    {| params_id := params_id req;
       req_body :=
         {| title := title b; author := author b; summary := summary b;
            isbn := isbn b;
            genre := match genre b with
                     | GUndefined => GArray []
                     | GScalar v => GArray [v]
                     | GArray l => GArray l
                     end |} |}
  else req.

Definition required (path msg : string) : ValidationChain :=
  body path msg false [Trim; IsLength 1; Escape].

Definition book_validators (req : Request BookBody)
  : Request BookBody * list ValidationError :=
  let b := req_body req in
  let '(v1, e1) := run (required "title" "タイトルは必須です") (title b) in
  let '(v2, e2) := run (required "author" "著者を選択してください") (author b) in
  let '(v3, e3) := run (required "summary" "概要を入力してください") (summary b) in
  let '(v4, e4) := run (required "isbn" "ISBNは必須です") (isbn b) in
  let '(v5, e5) :=
    match genre b with
    | GArray l =>
        let '(l', e) := run_each (body "genre.*" "Invalid value" false [Escape]) l in
        (GArray l', e)
    | g => (g, [])
    end in
  ({| params_id := params_id req;
      req_body := {| title := v1; author := v2; summary := v3; isbn := v4;
                     genre := v5 |} |},
   e1 ++ e2 ++ e3 ++ e4 ++ e5).

Definition cast_refs (g : GenreField) : list ObjectId :=
  match g with
  | GUndefined => []
  | GScalar v => [v]
  | GArray l => l
  end.

Definition new_Book (id : ObjectId) (b : BookBody) : Doc Book :=
  (id, {| book_title := cast_string (title b);
          book_author := cast_string (author b);
          book_summary := cast_string (summary b);
          book_isbn := cast_string (isbn b);
          book_genre := cast_refs (genre b) |}).

(** The failure branch of both forms: all authors and genres, the genres
    of the submitted book marked as checked. *)
Definition render_book_form (heading : string) (book : Doc Book)
    (errors : list ValidationError) : Handler unit :=
  allAuthors ← find AuthorModel (λ _, true);
  allGenres ← find GenreModel (λ _, true);
  res_render "book_form"
    [("title", VText heading);
     ("authors", VAuthors (sort_asc family_name allAuthors));
     ("genres", VGenres (map (λ g : Doc Genre,
                                (g, bool_decide (g.1 ∈ book_genre book.2)))
                             (sort_asc genre_name allGenres)));
     ("book", VBook book);
     ("errors", VErrors errors)].

(** [oid] is the [_id] that [new Book(...)] gives the document. *)
Definition book_create_post (oid : ObjectId) (req0 : Request BookBody)
  : World → World :=
  let '(req, errors) := book_validators (normalize_genre req0) in
  asyncHandler (
    let book := new_Book oid (req_body req) in
    if negb (isEmpty errors) then render_book_form "書籍登録" book errors
    else
      save BookModel book;;
      res_redirect (book_url book.1)).

Definition instances_of (id : ObjectId) : Handler (list (Doc BookInstance)) :=
  find BookInstanceModel (λ i, bool_decide (bi_book i.2 = id)).

Definition book_delete_get (req : Request unit) : World → World :=
  asyncHandler (
    book ← findById BookModel (params_id req) ≫= populate_with populate_book;
    bookInstances ← instances_of (params_id req);
    (if bool_decide (book = None) then res_redirect "/catalog/books"
     else mret ());;
    res_render "book_delete"
      [("title", VText "書籍削除");
       ("book", VPopulatedBook book);
       ("book_instances", VBookInstances bookInstances)]).

Definition book_delete_post (req : Request DeleteBody) : World → World :=
  asyncHandler (
    book ← findById BookModel (params_id req) ≫= populate_with populate_book;
    bookInstances ← instances_of (params_id req);
    (if bool_decide (book = None) then res_redirect "/catalog/books"
     else mret ());;
    if (0 <? length bookInstances)%nat then
      res_render "book_delete"
        [("title", VText "書籍削除");
         ("book", VPopulatedBook book);
         ("book_instances", VBookInstances bookInstances)]
    else
      findByIdAndDelete BookModel (body_id (req_body req));;
      res_redirect "/catalog/books").

Definition book_update_post (req0 : Request BookBody) : World → World :=
  let '(req, errors) := book_validators (normalize_genre req0) in
  asyncHandler (
    let b := req_body req in
    let book :=
      new_Book (params_id req)
        {| title := title b; author := author b; summary := summary b;
           isbn := isbn b;
           genre := match genre b with
                    | GUndefined => GArray []
                    | g => g
                    end |} in
    if negb (isEmpty errors) then render_book_form "書籍編集" book errors
    else
      thebook ← findByIdAndUpdate BookModel (params_id req) book;
      match thebook with
      | Some found => res_redirect (book_url found.1)
      | None => throw (TypeError "thebook is null")
      end).

End bookController.

(** ** Running a handler, and what the client receives *)

(** A request starts on the current store with nothing sent. *)
Definition on_store (st : Store) : World := {| db := st; calls := [] |}.

(** The response is decided by the first call: [res.redirect] answers with
    the location, [res.render] answers with the page and, as no handler sets
    a status, 200; an exception reaches the error handler. *)
Inductive Response :=
| Found (location : string)
| Page (status : nat) (view : string) (locals : Locals)
| Failure (e : Exn).

Definition response (cs : list Call) : option Response :=
  match cs with
  | [] => None
  | Redirect url :: _ => Some (Found url)
  | Render view locals :: _ => Some (Page 200 view locals)
  | Next e :: _ => Some (Failure e)
  end.

(** The views a handler renders in the course of a request. *)
Definition rendered (cs : list Call) : list string :=
  omap (λ c, match c with Render view _ => Some view | _ => None end) cs.

(** ** Dependents

    The documents that refer to an entity: the instances of a book, the
    books of a genre. *)

Definition no_instances (st : Store) (id : ObjectId) : Prop :=
  ∀ i inst, bookinstances st !! i = Some inst → bi_book inst ≠ id.

Definition no_books_in_genre (st : Store) (id : ObjectId) : Prop :=
  ∀ i b, books st !! i = Some b → id ∉ book_genre b.

(** ** What the chains of the forms compute

    The value a required field has after [trim] and [escape], the error it
    leaves when fewer than [min] characters remain after trimming, and the
    value and the error of the optional date. *)

Section Sanitized.
Context `{L : Lib}.

Definition sanitized (v : FieldValue) : string := escape (trim (toString v)).

Definition too_short (path msg : string) (min : nat) (v : FieldValue)
  : list ValidationError :=
  if (min <=? char_count (trim (toString v)))%nat then []
  else [{| err_path := path; err_msg := msg; err_value := Str (trim (toString v)) |}].

Definition date_value (v : FieldValue) : FieldValue :=
  if falsy v then v else from_option DateV Null (toDate (toString v)).

Definition not_a_date (v : FieldValue) : list ValidationError :=
  if falsy v then []
  else if isISO8601 (toString v) then []
  else [{| err_path := "due_back"; err_msg := "無効な日付形式です"; err_value := v |}].

(** A required field is filled in, an optional date is left out or well
    formed. *)
Definition filled (v : FieldValue) : Prop :=
  (1 ≤ char_count (trim (toString v)))%nat.

Definition date_ok (v : FieldValue) : Prop :=
  falsy v = true ∨ isISO8601 (toString v) = true.

(** The documents the update and create handlers build from a form. *)
Definition sanitized_genre (b : GenreBody) : Genre :=
  {| genre_name := sanitized (name b) |}.

Definition sanitized_book (b : BookBody) : Book :=
  {| book_title := sanitized (title b);
     book_author := sanitized (author b);
     book_summary := sanitized (summary b);
     book_isbn := sanitized (isbn b);
     book_genre := map escape (cast_refs (genre b)) |}.

Definition sanitized_bookinstance (b : BookInstanceBody) : BookInstance :=
  {| bi_book := sanitized (book b);
     bi_imprint := sanitized (imprint b);
     bi_status := escape (toString (status b));
     bi_due_back := cast_date (date_value (due_back b)) |}.

(** The document stored under [id] is replaced and nothing else changes:
    the same ids are stored, with the same documents elsewhere. *)
Definition replaced_at {A} (m m' : gmap ObjectId A) (id : ObjectId) (x : A) : Prop :=
  m' !! id = Some x ∧ dom m' = dom m ∧ ∀ j, j ≠ id → m' !! j = m !! j.

End Sanitized.

(** ** The pages that only read

    The handlers of the list, detail and form pages answer a GET request.
    Their calls are logged in a world of their own, which adds to the calls
    above the pages with the values only these views take and the call of
    [next] with an error that carries a status. *)

Inductive PageDatum :=
| Known (d : Datum)
| VCount (n : nat)
| VGenreList (l : list (Doc Genre))
| VBookList (l : list (ObjectId * (string * option (Doc Author))))
| VBooks (l : list (Doc Book))
| VBookWithAuthor (b : Doc Book) (a : option (Doc Author))
| VPopulatedBookInstances (l : list PopulatedBookInstance).

Inductive PageCall :=
| Sent (c : Call)
| RenderPage (view : string) (locals : list (string * PageDatum))
| NextError (status : nat) (message : string).

Record PageWorld := {
  page_db : Store;
  page_calls : list PageCall }.

Definition PageHandler (A : Type) : Type := PageWorld → Outcome A * PageWorld.

#[global] Instance Page_ret : MRet PageHandler := λ A a w, (Ok a, w).
#[global] Instance Page_bind : MBind PageHandler := λ A B f m w,
  match m w with
  | (Ok a, w1) => f a w1
  | (Throw e, w1) => (Throw e, w1)
  end.

(** An operation of the handlers above, run on the store of the page. *)
Definition reading {A} (h : Handler A) : PageHandler A := λ w,
  let '(o, w1) := h {| db := page_db w; calls := [] |} in
  (o, {| page_db := db w1; page_calls := page_calls w ++ map Sent (calls w1) |}).

Definition page_log (c : PageCall) : PageHandler unit :=
  λ w, (Ok (), {| page_db := page_db w; page_calls := page_calls w ++ [c] |}).

Definition page_render (view : string) (locals : list (string * PageDatum)) : PageHandler unit :=
  page_log (RenderPage view locals).

(** [const err = new Error(message); err.status = status; next(err)]. *)
Definition next_error (status : nat) (message : string) : PageHandler unit :=
  page_log (NextError status message).

Definition page_throw {A} (e : Exn) : PageHandler A := λ w, (Throw e, w).

Definition asyncPage (fn : PageHandler unit) (w : PageWorld) : PageWorld :=
  match fn w with
  | (Ok _, w1) => w1
  | (Throw e, w1) =>
      {| page_db := page_db w1; page_calls := page_calls w1 ++ [Sent (Next e)] |}
  end.

Definition on_page (st : Store) : PageWorld := {| page_db := st; page_calls := [] |}.

(** Modelled from the spec: [count(filter)] yields the number of documents
    that match. *)
Definition countDocuments {A} (M : Model A) (filter : Doc A → bool) : Handler nat :=
  read M (λ c, length (List.filter filter (map_to_list c))).

(** [populate] on every document of a list. *)
Definition populate_all {A B} (f : Store → A → B) (l : list A) : Handler (list B) :=
  λ w, (Ok (map (f (db w)) l), w).

Definition populate_author (st : Store) (d : Doc Book) : option (Doc Author) :=
  pair (book_author d.2) <$> authors st !! book_author d.2.

Section Pages.
Context `{L : Lib}.

Definition genre_list (req : Request unit) : PageWorld → PageWorld :=
  asyncPage (
    allGenres ← reading (find GenreModel (λ _, true));
    page_render "genre_list"
      [("title", Known (VText "ジャンル一覧"));
       ("list_genres", VGenreList (sort_asc genre_name allGenres))]).

Definition genre_detail (req : Request unit) : PageWorld → PageWorld :=
  asyncPage (
    genre ← reading (findById GenreModel (params_id req));
    booksInGenre ← reading (books_in_genre (params_id req));
    if bool_decide (genre = None) then next_error 404 "ジャンルが見つかりません"
    else
      page_render "genre_detail"
        [("title", Known (VText "ジャンル詳細"));
         ("genre", Known (VGenre genre));
         ("genre_books", Known (VBookSummaries booksInGenre))]).

Definition genre_create_get (req : Request unit) (w : PageWorld) : PageWorld :=
  (page_render "genre_form" [("title", Known (VText "ジャンル作成"))] w).2.

Definition genre_update_get (req : Request unit) : PageWorld → PageWorld :=
  asyncPage (
    genre ← reading (findById GenreModel (params_id req));
    if bool_decide (genre = None) then next_error 404 "ジャンルが見つかりません"
    else
      page_render "genre_form"
        [("title", Known (VText "ジャンル更新"));
         ("genre", Known (VGenre genre))]).

Definition bookinstance_list (req : Request unit) : PageWorld → PageWorld :=
  asyncPage (
    allBookInstances ← reading (find BookInstanceModel (λ _, true)
                                  ≫= populate_all populate_bookinstance);
    page_render "bookinstance_list"
      [("title", Known (VText "資料一覧"));
       ("bookinstance_list", VPopulatedBookInstances allBookInstances)]).

Definition bookinstance_detail (req : Request unit) : PageWorld → PageWorld :=
  asyncPage (
    bookInstance ← reading (findById BookInstanceModel (params_id req)
                              ≫= populate_with populate_bookinstance);
    if bool_decide (bookInstance = None) then next_error 404 "資料が見つかりません"
    else
      page_render "bookinstance_detail"
        [("title", Known (VText "資料詳細:"));
         ("bookinstance", Known (VPopulatedBookInstance bookInstance))]).

Definition bookinstance_create_get (req : Request unit) : PageWorld → PageWorld :=
  asyncPage (
    allBooks ← reading (find BookModel (λ _, true));
    page_render "bookinstance_form"
      [("title", Known (VText "資料作成"));
       ("book_list", Known (VBookTitles (book_titles (sort_asc book_title allBooks))))]).

(** [bookInstance.book] is populated here: [bookInstance.book._id] reads
    the id of the book found and throws when there is none. *)
Definition bookinstance_update_get (req : Request unit) : PageWorld → PageWorld :=
  asyncPage (
    bookInstance ← reading (findById BookInstanceModel (params_id req)
                              ≫= populate_with populate_bookinstance);
    allBooks ← reading (find BookModel (λ _, true));
    match bookInstance with
    | None => next_error 404 "資料が見つかりません"
    | Some found =>
        match pbi_book found with
        | None => page_throw (TypeError "bookInstance.book is null")
        | Some b =>
            page_render "bookinstance_form"
              [("title", Known (VText "資料更新"));
               ("book_list", VBooks allBooks);
               ("selected_book", Known (VId b.1));
               ("bookinstance", Known (VPopulatedBookInstance bookInstance))]
        end
    end).

Definition index (req : Request unit) : PageWorld → PageWorld :=
  asyncPage (
    numBooks ← reading (countDocuments BookModel (λ _, true));
    numBookInstances ← reading (countDocuments BookInstanceModel (λ _, true));
    numAvailableBookInstances ←
      reading (countDocuments BookInstanceModel
                 (λ i, bool_decide (bi_status i.2 = "Available")));
    numAuthors ← reading (countDocuments AuthorModel (λ _, true));
    numGenres ← reading (countDocuments GenreModel (λ _, true));
    page_render "index"
      [("title", Known (VText "ライブラリホーム"));
       ("book_count", VCount numBooks);
       ("book_instance_count", VCount numBookInstances);
       ("book_instance_available_count", VCount numAvailableBookInstances);
       ("author_count", VCount numAuthors);
       ("genre_count", VCount numGenres)]).

Definition book_list (req : Request unit) : PageWorld → PageWorld :=
  asyncPage (
    allBooks ← reading (
      l ← find BookModel (λ _, true);
      populate_all (λ st (b : Doc Book), (b.1, (book_title b.2, populate_author st b)))
        (sort_asc book_title l));
    page_render "book_list"
      [("title", Known (VText "書籍一覧"));
       ("book_list", VBookList allBooks)]).

Definition book_detail (req : Request unit) : PageWorld → PageWorld :=
  asyncPage (
    book ← reading (findById BookModel (params_id req) ≫= populate_with populate_book);
    bookInstances ← reading (instances_of (params_id req));
    match book with
    | None => next_error 404 "書籍が見つかりません"
    | Some found =>
        page_render "book_detail"
          [("title", Known (VText (book_title (pb_doc found).2)));
           ("book", Known (VPopulatedBook book));
           ("book_instances", Known (VBookInstances bookInstances))]
    end).

Definition book_create_get (req : Request unit) : PageWorld → PageWorld :=
  asyncPage (
    allAuthors ← reading (find AuthorModel (λ _, true));
    allGenres ← reading (find GenreModel (λ _, true));
    page_render "book_form"
      [("title", Known (VText "書籍登録"));
       ("authors", Known (VAuthors (sort_asc family_name allAuthors)));
       ("genres", VGenreList (sort_asc genre_name allGenres))]).

Definition book_update_get (req : Request unit) : PageWorld → PageWorld :=
  asyncPage (
    book ← reading (findById BookModel (params_id req)
                      ≫= populate_with (λ st b, (b, populate_author st b)));
    allAuthors ← reading (find AuthorModel (λ _, true));
    allGenres ← reading (find GenreModel (λ _, true));
    match book with
    | None => next_error 404 "書籍が見つかりません"
    | Some (found, author) =>
        page_render "book_form"
          [("title", Known (VText "書籍編集"));
           ("authors", Known (VAuthors (sort_asc family_name allAuthors)));
           ("genres", Known (VGenres
              (map (λ g : Doc Genre, (g, bool_decide (g.1 ∈ book_genre found.2)))
                 (sort_asc genre_name allGenres))));
           ("book", VBookWithAuthor found author)]
    end).

End Pages.

(** The pages rendered and the errors passed on in the course of a request. *)
Definition pages_rendered (cs : list PageCall) : list string :=
  omap (λ c, match c with
             | RenderPage view _ | Sent (Render view _) => Some view
             | _ => None
             end) cs.

(** ** Invariants of the store *)

Section Invariants.
Context `{L : Lib}.

(** No two genres have names that are equal under the collation. *)
Definition unique_names (st : Store) : Prop :=
  ∀ i j g h, genres st !! i = Some g → genres st !! j = Some h →
             collation_eq (genre_name g) (genre_name h) = true → i = j.

(** Every instance refers to a stored book, every book to stored genres. *)
Definition instances_have_books (st : Store) : Prop :=
  ∀ i inst, bookinstances st !! i = Some inst → is_Some (books st !! bi_book inst).

Definition books_have_genres (st : Store) : Prop :=
  ∀ i b g, books st !! i = Some b → g ∈ book_genre b → is_Some (genres st !! g).

End Invariants.

(** ** A small instance of the libraries

    White space is trimmed at both ends, the characters HTML treats
    specially are replaced by entities, names are compared after folding
    the upper case of ASCII to lower case, the characters of a string are
    its UTF-8 code points, and a date is ten characters [YYYY-MM-DD] counted
    in milliseconds from 1970-01-01. *)

Module Sample.

Definition is_space (c : ascii) : bool :=
  bool_decide (c ∈ [" "; "009"; "010"; "011"; "012"; "013"]%char).

Fixpoint trim_left (s : string) : string :=
  match s with
  | String c s' => if is_space c then trim_left s' else s
  | EmptyString => EmptyString
  end.

Definition strip (s : string) : string :=
  String.rev (trim_left (String.rev (trim_left s))).

Definition escape_char (c : ascii) : string :=
  if bool_decide (c = "&"%char) then "&amp;"
  else if bool_decide (c = "034"%char) then "&quot;"
  else if bool_decide (c = "'"%char) then "&#x27;"
  else if bool_decide (c = "<"%char) then "&lt;"
  else if bool_decide (c = ">"%char) then "&gt;"
  else if bool_decide (c = "/"%char) then "&#x2F;"
  else if bool_decide (c = "\"%char) then "&#x5C;"
  else if bool_decide (c = "`"%char) then "&#96;"
  else String c EmptyString.

Fixpoint html_escape (s : string) : string :=
  match s with
  | String c s' => escape_char c +:+ html_escape s'
  | EmptyString => EmptyString
  end.

(** The characters of a string in UTF-8: every byte but the continuation
    bytes, which lie from 128 to 191, starts one. *)
Fixpoint code_points (s : string) : nat :=
  match s with
  | String c s' =>
      let n := nat_of_ascii c in
      if (128 <=? n)%nat && (n <=? 191)%nat then code_points s'
      else S (code_points s')
  | EmptyString => 0
  end.

Definition lower (c : ascii) : ascii :=
  let n := nat_of_ascii c in
  if (65 <=? n)%nat && (n <=? 90)%nat then ascii_of_nat (n + 32) else c.

Fixpoint fold_case (s : string) : string :=
  match s with
  | String c s' => String (lower c) (fold_case s')
  | EmptyString => EmptyString
  end.

Definition same_name (a b : string) : bool :=
  String.eqb (fold_case a) (fold_case b).

Definition digit (c : ascii) : option Z :=
  let n := nat_of_ascii c in
  if (48 <=? n)%nat && (n <=? 57)%nat then Some (Z.of_nat (n - 48)) else None.

Fixpoint number (acc : Z) (l : list ascii) : option Z :=
  match l with
  | [] => Some acc
  | c :: l' => d ← digit c; number (10 * acc + d) l'
  end.

Definition parse_date (s : string) : option (Z * Z * Z) :=
  match list_ascii_of_string s with
  | [y1; y2; y3; y4; "-"; m1; m2; "-"; d1; d2]%char =>
      y ← number 0 [y1; y2; y3; y4];
      m ← number 0 [m1; m2];
      d ← number 0 [d1; d2];
      if bool_decide (1 ≤ m ≤ 12 ∧ 1 ≤ d ≤ 31)%Z then Some (y, m, d) else None
  | _ => None
  end.

Definition days_from_civil (y m d : Z) : Z :=
  let y := (if m <=? 2 then y - 1 else y)%Z in
  let era := (y `div` 400)%Z in
  let yoe := (y - era * 400)%Z in
  let doy := ((153 * (if 2 <? m then m - 3 else m + 9) + 2) `div` 5 + d - 1)%Z in
  (era * 146097 + (yoe * 365 + yoe `div` 4 - yoe `div` 100 + doy) - 719468)%Z.

(** [isISO8601] as the handlers call it, without [strict], on the ten
    characters YYYY-MM-DD: the month is 01 to 12 and the day 01 to 31,
    whatever the month. *)
Definition is_date (s : string) : bool := bool_decide (is_Some (parse_date s)).

(** [toDate]: a day past the end of its month counts on into the next
    month. *)
Definition to_date (s : string) : option Date :=
  '(y, m, d) ← parse_date s; Some (days_from_civil y m d * 86400000)%Z.




Definition civil_from_days (z : Z) : Z * Z * Z :=
  let z := (z + 719468)%Z in
  let era := (z `div` 146097)%Z in
  let doe := (z - era * 146097)%Z in
  let yoe := ((doe - doe `div` 1460 + doe `div` 36524 - doe `div` 146096) `div` 365)%Z in
  let doy := (doe - (365 * yoe + yoe `div` 4 - yoe `div` 100))%Z in
  let mp := ((5 * doy + 2) `div` 153)%Z in
  let d := (doy - (153 * mp + 2) `div` 5 + 1)%Z in
  let m := (if mp <? 10 then mp + 3 else mp - 9)%Z in
  ((if m <=? 2 then yoe + era * 400 + 1 else yoe + era * 400)%Z, m, d).

Definition digits (width : nat) (n : Z) : string :=
  let s := pretty (Z.to_N n) in
  String.concat EmptyString (replicate (width - String.length s) "0") +:+ s.

Definition to_iso (t : Date) : string :=
  let '(y, m, d) := civil_from_days (t `div` 86400000)%Z in
  digits 4 y +:+ "-" +:+ digits 2 m +:+ "-" +:+ digits 2 d +:+ "T00:00:00.000Z".

#[export] Instance lib : Lib := {|
  trim := strip;
  escape := html_escape;
  isISO8601 := is_date;
  toDate := to_date;
  toISOString := to_iso;
  char_count := code_points;
  char_count_empty := eq_refl;
  collation_eq := same_name;
  genre_url id := "/catalog/genre/" +:+ id;
  book_url id := "/catalog/book/" +:+ id;
  bookinstance_url id := "/catalog/bookinstance/" +:+ id |}.

(** Ids as the store gives them out: twenty-four hexadecimal digits. *)
Definition g1 : ObjectId := "65a1b2c3d4e5f60718293a01".
Definition g2 : ObjectId := "65a1b2c3d4e5f60718293a02".
Definition g3 : ObjectId := "65a1b2c3d4e5f60718293a03".
Definition g9 : ObjectId := "65a1b2c3d4e5f60718293a09".
Definition b1 : ObjectId := "65a1b2c3d4e5f60718293b01".
Definition b2 : ObjectId := "65a1b2c3d4e5f60718293b02".
Definition b9 : ObjectId := "65a1b2c3d4e5f60718293b09".
Definition i1 : ObjectId := "65a1b2c3d4e5f60718293c01".
Definition i9 : ObjectId := "65a1b2c3d4e5f60718293c09".
Definition a1 : ObjectId := "65a1b2c3d4e5f60718293d01".
(** An id under which nothing is stored, and the absent id of the
    routes that have none. *)
Definition zz : ObjectId := "65a1b2c3d4e5f60718293eff".
Definition unused : ObjectId := EmptyString.

(** A small catalogue: a book with one copy in one genre, a book without
    copies, and a genre without books. *)
Definition hobbit : Book := {|
  book_title := "The Hobbit"; book_author := a1;
  book_summary := "There and back again"; book_isbn := "9780261102217";
  book_genre := [g1] |}.

Definition silmarillion : Book := {|
  book_title := "The Silmarillion"; book_author := a1;
  book_summary := "The elder days"; book_isbn := "9780261102736";
  book_genre := [] |}.

Definition copy : BookInstance := {|
  bi_book := b1; bi_imprint := "Allen and Unwin, 1937";
  bi_status := "Available"; bi_due_back := None |}.

Definition library : Store := {|
  genres := {[ g1 := {| genre_name := "Fantasy" |};
               g2 := {| genre_name := "Poetry" |} ]};
  books := {[ b1 := hobbit; b2 := silmarillion ]};
  bookinstances := {[ i1 := copy ]};
  authors := {[ a1 := {| first_name := "John"; family_name := "Tolkien";
                           date_of_birth := None; date_of_death := None |} ]} |}.

Definition empty_store : Store :=
  {| genres := ∅; books := ∅; bookinstances := ∅; authors := ∅ |}.

(** A store in which a copy outlived its book. *)
Definition orphans : Store :=
  {| genres := ∅; books := ∅; bookinstances := {[ i1 := copy ]}; authors := ∅ |}.

Definition get (id : ObjectId) : Request unit :=
  {| params_id := id; req_body := () |}.

Definition delete_form (url_id hidden_id : ObjectId) : Request DeleteBody :=
  {| params_id := url_id; req_body := {| body_id := hidden_id |} |}.

Definition genre_form (id : ObjectId) (n : string) : Request GenreBody :=
  {| params_id := id; req_body := {| name := Str n |} |}.

Definition book_form (id : ObjectId) (t : string) (g : GenreField)
  : Request BookBody :=
  {| params_id := id;
     req_body := {| title := Str t; author := Str a1;
                    summary := Str "A tale"; isbn := Str "12345";
                    genre := g |} |}.

Definition copy_form (id : ObjectId) (st : string) (due : FieldValue)
  : Request BookInstanceBody :=
  {| params_id := id;
     req_body := {| book := Str b1; imprint := Str "Folio, 1979";
                    status := Str st; due_back := due |} |}.

End Sample.

(** * Properties of the handlers *)

(** ** Reading a collection *)

Lemma elem_of_find {A} (m : gmap ObjectId A) (f : Doc A → bool) (d : Doc A) :
  d ∈ List.filter f (map_to_list m) ↔ m !! d.1 = Some d.2 ∧ f d = true.
Proof.
  rewrite list_elem_of_In, filter_In, <- list_elem_of_In.
  destruct d as [i a]; simpl. by rewrite (elem_of_map_to_list m i a).
Qed.

Lemma find_nil {A} (m : gmap ObjectId A) (f : Doc A → bool) :
  List.filter f (map_to_list m) = [] ↔ ∀ i a, m !! i = Some a → f (i, a) = false.
Proof.
  split.
  - intros E i a Hi. destruct (f (i, a)) eqn:Hf; [|done].
    assert (H : (i, a) ∈ List.filter f (map_to_list m)) by (by apply elem_of_find).
    rewrite E in H. by apply not_elem_of_nil in H.
  - intros H. destruct (List.filter f (map_to_list m)) as [|[i a] l] eqn:E; [done|].
    assert (Hin : (i, a) ∈ List.filter f (map_to_list m)) by (rewrite E; left).
    apply elem_of_find in Hin as [Hi Hf]. simpl in *. by rewrite (H i a Hi) in Hf.
Qed.

Lemma find_cons {A} (m : gmap ObjectId A) (f : Doc A → bool) i a :
  m !! i = Some a → f (i, a) = true →
  (0 <? length (List.filter f (map_to_list m)))%nat = true.
Proof.
  intros Hi Hf.
  destruct (List.filter f (map_to_list m)) eqn:E; [|done].
  pose proof (proj1 (find_nil m f) E i a Hi) as E'. by rewrite E' in Hf.
Qed.

Lemma head_find {A} (m : gmap ObjectId A) (f : Doc A → bool) d :
  head (List.filter f (map_to_list m)) = Some d → m !! d.1 = Some d.2 ∧ f d = true.
Proof.
  intros H. apply elem_of_find.
  destruct (List.filter f (map_to_list m)); [done|].
  injection H as ->. left.
Qed.

(** Unfolds the operations of the handler monad and of the storage
    interface, leaving the store and the log of the handler. *)
Ltac run_handler :=
  unfold save, findByIdAndUpdate, findByIdAndDelete, findById, find, findOne;
  unfold asyncHandler, populate_with, read, write, res_redirect, res_render, log,
    throw, on_store;
  unfold mbind, Handler_bind, mret, Handler_ret;
  simpl.

Section Properties.
Context `{L : Lib}.

(** ** Validation *)

Lemma run_trim_length_escape path msg min v :
  run (body path msg false [Trim; IsLength min; Escape]) v =
    (Str (sanitized v), too_short path msg min v).
Proof.
  unfold run, too_short, sanitized; simpl.
  by destruct (min <=? char_count (trim (toString v)))%nat.
Qed.

Lemma run_escape path msg v :
  run (body path msg false [Escape]) v = (Str (escape (toString v)), []).
Proof. reflexivity. Qed.

Lemma run_optional_date v :
  run (body "due_back" "無効な日付形式です" true [IsISO8601; ToDate]) v =
    (date_value v, not_a_date v).
Proof.
  unfold run, date_value, not_a_date; simpl.
  destruct (falsy v); simpl; [done|].
  by destruct (isISO8601 (toString v)).
Qed.

Lemma run_each_escape path msg l :
  run_each (body path msg false [Escape]) l = (map escape l, []).
Proof.
  unfold run_each. induction l as [|x l IH]; [done|].
  simpl in *. injection IH as IH1 IH2. by rewrite IH1, IH2.
Qed.

Lemma genre_validators_eq (req : Request GenreBody) :
  genre_validators req =
    ({| params_id := params_id req;
        req_body := {| name := Str (sanitized (name (req_body req))) |} |},
     too_short "name" "ジャンル名は3文字以上必要です" 3 (name (req_body req))).
Proof.
  unfold genre_validators, genre_name_chain.
  by rewrite run_trim_length_escape.
Qed.

Lemma bookinstance_validators_eq (req : Request BookInstanceBody) :
  bookinstance_validators req =
    ({| params_id := params_id req;
        req_body := {| book := Str (sanitized (book (req_body req)));
                       imprint := Str (sanitized (imprint (req_body req)));
                       status := Str (escape (toString (status (req_body req))));
                       due_back := date_value (due_back (req_body req)) |} |},
     too_short "book" "書籍を指定してください" 1 (book (req_body req)) ++
     too_short "imprint" "出版情報を指定してください" 1 (imprint (req_body req)) ++
     [] ++ not_a_date (due_back (req_body req))).
Proof.
  unfold bookinstance_validators.
  by rewrite !run_trim_length_escape, run_escape, run_optional_date.
Qed.

Lemma normalize_genre_eq (req : Request BookBody) :
  normalize_genre req =
    {| params_id := params_id req;
       req_body := {| title := title (req_body req);
                      author := author (req_body req);
                      summary := summary (req_body req);
                      isbn := isbn (req_body req);
                      genre := GArray (cast_refs (genre (req_body req))) |} |}.
Proof.
  unfold normalize_genre.
  destruct req as [i [t a s n g]]; by destruct g.
Qed.

Lemma book_validators_eq (req : Request BookBody) :
  book_validators (normalize_genre req) =
    ({| params_id := params_id req;
        req_body := {| title := Str (sanitized (title (req_body req)));
                       author := Str (sanitized (author (req_body req)));
                       summary := Str (sanitized (summary (req_body req)));
                       isbn := Str (sanitized (isbn (req_body req)));
                       genre := GArray (map escape (cast_refs (genre (req_body req)))) |} |},
     too_short "title" "タイトルは必須です" 1 (title (req_body req)) ++
     too_short "author" "著者を選択してください" 1 (author (req_body req)) ++
     too_short "summary" "概要を入力してください" 1 (summary (req_body req)) ++
     too_short "isbn" "ISBNは必須です" 1 (isbn (req_body req)) ++ []).
Proof.
  rewrite normalize_genre_eq. unfold book_validators, required.
  rewrite !run_trim_length_escape.
  cbn [req_body params_id genre title author summary isbn].
  by rewrite run_each_escape.
Qed.

Lemma too_short_nil path msg min v :
  (min ≤ char_count (trim (toString v)))%nat → too_short path msg min v = [].
Proof.
  intros H. unfold too_short.
  by rewrite (proj2 (Nat.leb_le _ _) H).
Qed.

Lemma too_short_path path msg min v e :
  e ∈ too_short path msg min v → err_path e = path.
Proof.
  unfold too_short. destruct (min <=? _)%nat.
  - by intros ?%not_elem_of_nil.
  - by intros ->%list_elem_of_singleton.
Qed.

(** ** Deleting *)

Lemma instances_of_nil st id :
  no_instances st id →
  List.filter (λ i : Doc BookInstance, bool_decide (bi_book i.2 = id))
    (map_to_list (bookinstances st)) = [].
Proof.
  intros H. apply find_nil. intros i a Hi; simpl.
  apply bool_decide_eq_false. by apply (H i).
Qed.

Lemma books_in_genre_nil st id :
  no_books_in_genre st id →
  List.filter (λ b : Doc Book, bool_decide (id ∈ book_genre b.2))
    (map_to_list (books st)) = [].
Proof.
  intros H. apply find_nil. intros i a Hi; simpl.
  apply bool_decide_eq_false. by apply (H i).
Qed.

Lemma book_delete_post_free st req :
  no_instances st (params_id req) →
  book_delete_post req (on_store st) =
    {| db := with_collection BookModel (delete (body_id (req_body req)) (books st)) st;
       calls := if bool_decide (books st !! params_id req = None)
                then [Redirect "/catalog/books"; Redirect "/catalog/books";
                      Next HeadersSent]
                else [Redirect "/catalog/books"] |}.
Proof.
  intros H. unfold book_delete_post, instances_of. run_handler.
  rewrite (instances_of_nil _ _ H); simpl.
  destruct (books st !! params_id req); reflexivity.
Qed.

Lemma genre_delete_post_free st req :
  no_books_in_genre st (params_id req) →
  genre_delete_post req (on_store st) =
    {| db := with_collection GenreModel (delete (body_id (req_body req)) (genres st)) st;
       calls := [Redirect "/catalog/genres"] |}.
Proof.
  intros H. unfold genre_delete_post, books_in_genre. run_handler.
  by rewrite (books_in_genre_nil _ _ H).
Qed.

Lemma Store_eta st :
  {| genres := genres st; books := books st;
     bookinstances := bookinstances st; authors := authors st |} = st.
Proof. by destruct st. Qed.

Lemma book_delete_post_blocked st req b i inst :
  books st !! params_id req = Some b →
  bookinstances st !! i = Some inst →
  bi_book inst = params_id req →
  book_delete_post req (on_store st) =
    {| db := st;
       calls := [Render "book_delete"
                   [("title", VText "書籍削除");
                    ("book", VPopulatedBook
                               (Some (populate_book st (params_id req, b))));
                    ("book_instances", VBookInstances
                       (List.filter
                          (λ d : Doc BookInstance,
                             bool_decide (bi_book d.2 = params_id req))
                          (map_to_list (bookinstances st))))]] |}.
Proof.
  intros Hb Hi Href. unfold book_delete_post, instances_of. run_handler.
  rewrite Hb; simpl.
  rewrite (find_cons (bookinstances st) _ i inst Hi); [done|].
  by apply bool_decide_eq_true.
Qed.

Lemma genre_delete_post_blocked st req i b :
  books st !! i = Some b →
  params_id req ∈ book_genre b →
  genre_delete_post req (on_store st) =
    {| db := st;
       calls := [Render "genre_delete"
                   [("title", VText "ジャンル削除");
                    ("genre", VGenre (pair (params_id req) <$>
                                        genres st !! params_id req));
                    ("genre_books", VBookSummaries
                       (map (λ d : Doc Book,
                               (d.1, (book_title d.2, book_summary d.2)))
                          (List.filter
                             (λ d : Doc Book,
                                bool_decide (params_id req ∈ book_genre d.2))
                             (map_to_list (books st)))))]] |}.
Proof.
  intros Hi Href. unfold genre_delete_post, books_in_genre. run_handler.
  rewrite length_map.
  rewrite (find_cons (books st) _ i b Hi); [done|].
  by apply bool_decide_eq_true.
Qed.

(** C2: a delete is blocked by dependents and leaves the store unchanged.
    For a stored book with at least one instance that refers to it,
    [book_delete_post] renders the confirmation view [book_delete], with
    the book and exactly its instances, and the store is the one before;
    for a stored genre that at least one book lists, [genre_delete_post]
    renders [genre_delete] with the genre and its books and the store is
    the one before.  When the request names the entity in the URL and in
    the hidden field alike and nothing depends on it, the entity is
    deleted and the response is the redirect to the list. *)
Theorem delete_post_blocked_by_dependents st id (req : Request DeleteBody) :
  params_id req = id →
  (∀ b i inst,
     books st !! id = Some b →
     bookinstances st !! i = Some inst → bi_book inst = id →
     ∃ insts,
       (i, inst) ∈ insts ∧
       (∀ d, d ∈ insts ↔ bookinstances st !! d.1 = Some d.2 ∧ bi_book d.2 = id) ∧
       book_delete_post req (on_store st) =
         {| db := st;
            calls := [Render "book_delete"
                        [("title", VText "書籍削除");
                         ("book", VPopulatedBook (Some (populate_book st (id, b))));
                         ("book_instances", VBookInstances insts)]] |}) ∧
  (∀ g i b,
     genres st !! id = Some g →
     books st !! i = Some b → id ∈ book_genre b →
     ∃ bks,
       (i, (book_title b, book_summary b)) ∈ bks ∧
       genre_delete_post req (on_store st) =
         {| db := st;
            calls := [Render "genre_delete"
                        [("title", VText "ジャンル削除");
                         ("genre", VGenre (Some (id, g)));
                         ("genre_books", VBookSummaries bks)]] |}) ∧
  (body_id (req_body req) = id →
     (∀ b, books st !! id = Some b → no_instances st id →
        let w := book_delete_post req (on_store st) in
        books (db w) !! id = None ∧
        db w = with_collection BookModel (delete id (books st)) st ∧
        calls w = [Redirect "/catalog/books"]) ∧
     (∀ g, genres st !! id = Some g → no_books_in_genre st id →
        let w := genre_delete_post req (on_store st) in
        genres (db w) !! id = None ∧
        db w = with_collection GenreModel (delete id (genres st)) st ∧
        calls w = [Redirect "/catalog/genres"])).
Proof.
  intros <-. split; [|split].
  - intros b i inst Hb Hi Href.
    exists (List.filter
              (λ d : Doc BookInstance, bool_decide (bi_book d.2 = params_id req))
              (map_to_list (bookinstances st))).
    split; [|split].
    + apply (elem_of_find _ _ (i, inst)). split; [done|].
      by apply bool_decide_eq_true.
    + intros d. rewrite elem_of_find, bool_decide_eq_true. reflexivity.
    + by apply (book_delete_post_blocked st req b i inst).
  - intros g i b Hg Hi Href.
    exists (map (λ d : Doc Book, (d.1, (book_title d.2, book_summary d.2)))
              (List.filter
                 (λ d : Doc Book, bool_decide (params_id req ∈ book_genre d.2))
                 (map_to_list (books st)))).
    split.
    + apply list_elem_of_In.
      apply (in_map (λ d : Doc Book, (d.1, (book_title d.2, book_summary d.2)))
               _ (i, b)).
      apply list_elem_of_In, elem_of_find. split; [done|].
      by apply bool_decide_eq_true.
    + rewrite (genre_delete_post_blocked st req i b Hi Href). by rewrite Hg.
  - intros Hbody. split.
    + intros b Hb Hfree. simpl.
      rewrite (book_delete_post_free st req Hfree), Hbody, Hb. simpl.
      by rewrite lookup_delete_eq.
    + intros g Hg Hfree. simpl.
      rewrite (genre_delete_post_free st req Hfree), Hbody. simpl.
      by rewrite lookup_delete_eq.
Qed.

(** C9: the dependents are looked up under the id of the URL, the delete
    is issued for the id of the body.  When the two differ and nothing
    depends on the entity of the URL, the document stored under the id of
    the body is the one removed, whatever depends on it, and the entity of
    the URL and the other collections stay as they were. *)
Theorem delete_post_deletes_body_id st (req : Request DeleteBody) :
  body_id (req_body req) ≠ params_id req →
  (no_instances st (params_id req) →
     let st' := db (book_delete_post req (on_store st)) in
     books st' = delete (body_id (req_body req)) (books st) ∧
     books st' !! body_id (req_body req) = None ∧
     books st' !! params_id req = books st !! params_id req ∧
     genres st' = genres st ∧ bookinstances st' = bookinstances st ∧
     authors st' = authors st) ∧
  (no_books_in_genre st (params_id req) →
     let st' := db (genre_delete_post req (on_store st)) in
     genres st' = delete (body_id (req_body req)) (genres st) ∧
     genres st' !! body_id (req_body req) = None ∧
     genres st' !! params_id req = genres st !! params_id req ∧
     books st' = books st ∧ bookinstances st' = bookinstances st ∧
     authors st' = authors st).
Proof.
  intros Hne. split; intros Hfree; simpl.
  - rewrite (book_delete_post_free st req Hfree). simpl.
    by rewrite lookup_delete_eq, lookup_delete_ne.
  - rewrite (genre_delete_post_free st req Hfree). simpl.
    by rewrite lookup_delete_eq, lookup_delete_ne.
Qed.

(** C10: [bookinstance_delete_post] is unconditional.  On every store and
    for every request it issues the delete for the id of the body and its
    only call is the redirect to the list of instances, so the response
    does not tell whether an instance was stored under that id; when none
    was, the store is the one before; every other instance and the other
    collections are untouched. *)
Theorem bookinstance_delete_post_unconditional st (req : Request DeleteBody) :
  let w := bookinstance_delete_post req (on_store st) in
  calls w = [Redirect "/catalog/bookinstances"] ∧
  response (calls w) = Some (Found "/catalog/bookinstances") ∧
  bookinstances (db w) = delete (body_id (req_body req)) (bookinstances st) ∧
  (bookinstances st !! body_id (req_body req) = None → db w = st) ∧
  (∀ i, i ≠ body_id (req_body req) →
        bookinstances (db w) !! i = bookinstances st !! i) ∧
  books (db w) = books st ∧ genres (db w) = genres st ∧
  authors (db w) = authors st.
Proof.
  unfold bookinstance_delete_post. run_handler.
  repeat split; try done.
  - intros Hnone. rewrite (delete_id _ _ Hnone). apply Store_eta.
  - intros i Hne. by rewrite lookup_delete_ne.
Qed.

(** ** Creating a genre *)

Lemma head_find_None {A} (m : gmap ObjectId A) (f : Doc A → bool) :
  head (List.filter f (map_to_list m)) = None ↔
  ∀ i a, m !! i = Some a → f (i, a) = false.
Proof.
  rewrite <- find_nil. by destruct (List.filter f (map_to_list m)).
Qed.

(** C1: creating a genre is idempotent under a collision of names.  Let
    the submitted name pass validation (three characters or more after
    trimming) and let [n] be its sanitized form, the name that is looked
    up and stored.  If a stored genre has a name equal to [n] under the
    collation, no record is created, the store is the one before, and the
    response is the redirect to the detail URL of a stored genre with such
    a name.  If no stored genre has such a name, the new genre is stored
    under its fresh id with the name [n] and the response is the redirect
    to its detail URL. *)
Theorem genre_create_post_idempotent st oid (req : Request GenreBody) :
  let n := sanitized (name (req_body req)) in
  let w := genre_create_post oid req (on_store st) in
  (3 ≤ char_count (trim (toString (name (req_body req)))))%nat →
  ((∃ id g, genres st !! id = Some g ∧ collation_eq (genre_name g) n = true) →
     db w = st ∧
     ∃ id g, genres st !! id = Some g ∧ collation_eq (genre_name g) n = true ∧
             calls w = [Redirect (genre_url id)]) ∧
  ((∀ id g, genres st !! id = Some g → collation_eq (genre_name g) n = false) →
     genres st !! oid = None →
     db w = with_collection GenreModel (<[oid := {| genre_name := n |}]> (genres st)) st ∧
     calls w = [Redirect (genre_url oid)]).
Proof.
  intros n w Hlen. subst w. unfold genre_create_post.
  rewrite genre_validators_eq, (too_short_nil _ _ _ _ Hlen). fold n.
  run_handler.
  destruct (head (List.filter
                    (λ g : Doc Genre, collation_eq (genre_name g.2) n)
                    (map_to_list (genres st)))) as [[id g]|] eqn:Hhead.
  - apply head_find in Hhead as [Hid Hname]. simpl in *. split.
    + intros _. split; [done|]. by exists id, g.
    + intros Hnone. by rewrite (Hnone id g Hid) in Hname.
  - split.
    + intros (id & g & Hid & Hname).
      pose proof (proj1 (head_find_None _ _) Hhead id g Hid) as Hf.
      simpl in Hf. congruence.
    + intros _ Hfresh. simpl. by rewrite Hfresh.
Qed.

(** ** The confirmation pages *)

(** C3, as the code runs: for an id that matches no stored entity each of
    the three [delete_get] handlers calls [res.redirect] to the list of
    its entity, which is the response the client receives and no error is
    passed on, but the handler does not return there: it goes on to call
    [res.render] of the confirmation view with the entity [null]. *)
Theorem delete_get_missing_id st id :
  let req := {| params_id := id; req_body := () |} in
  (genres st !! id = None →
     let w := genre_delete_get req (on_store st) in
     db w = st ∧ response (calls w) = Some (Found "/catalog/genres") ∧
     rendered (calls w) = ["genre_delete"] ∧
     ∃ bks, calls w =
       [Redirect "/catalog/genres";
        Render "genre_delete"
          [("title", VText "ジャンル削除"); ("genre", VGenre None);
           ("genre_books", VBookSummaries bks)]]) ∧
  (books st !! id = None →
     let w := book_delete_get req (on_store st) in
     db w = st ∧ response (calls w) = Some (Found "/catalog/books") ∧
     rendered (calls w) = ["book_delete"] ∧
     ∃ insts, calls w =
       [Redirect "/catalog/books";
        Render "book_delete"
          [("title", VText "書籍削除"); ("book", VPopulatedBook None);
           ("book_instances", VBookInstances insts)]]) ∧
  (bookinstances st !! id = None →
     let w := bookinstance_delete_get req (on_store st) in
     db w = st ∧ response (calls w) = Some (Found "/catalog/bookinstances") ∧
     calls w =
       [Redirect "/catalog/bookinstances";
        Render "bookinstance_delete"
          [("title", VText "資料削除");
           ("bookinstance", VPopulatedBookInstance None)]]).
Proof.
  simpl. split; [|split]; intros Hnone.
  - unfold genre_delete_get, books_in_genre. run_handler. rewrite Hnone; simpl.
    repeat split; try done. by eexists.
  - unfold book_delete_get, instances_of. run_handler. rewrite Hnone; simpl.
    repeat split; try done. by eexists.
  - unfold bookinstance_delete_get. run_handler. by rewrite Hnone.
Qed.

(** ** Creating a book *)

(** C4: creating a book is atomic when validation fails.  When the title
    is empty after trimming, [book_create_post] stores nothing, and its
    only call renders the form [book_form], answered with status 200, with
    the submitted book and a list of errors that holds the error of the
    field [title]. *)
Theorem book_create_post_empty_title st oid (req : Request BookBody) :
  trim (toString (title (req_body req))) = EmptyString →
  let w := book_create_post oid req (on_store st) in
  db w = st ∧
  ∃ locals errors,
    calls w = [Render "book_form" locals] ∧
    response (calls w) = Some (Page 200 "book_form" locals) ∧
    ("book", VBook (new_Book oid (req_body (book_validators (normalize_genre req)).1)))
      ∈ locals ∧
    ("errors", VErrors errors) ∈ locals ∧
    {| err_path := "title"; err_msg := "タイトルは必須です";
       err_value := Str EmptyString |} ∈ errors.
Proof.
  intros Hempty w. subst w. unfold book_create_post.
  rewrite book_validators_eq.
  assert (Ht : too_short "title" "タイトルは必須です" 1 (title (req_body req)) =
               [{| err_path := "title"; err_msg := "タイトルは必須です";
                   err_value := Str EmptyString |}])
    by (unfold too_short; by rewrite Hempty, char_count_empty).
  rewrite Ht. simpl. unfold render_book_form. run_handler.
  split; [done|]. do 2 eexists.
  split; [reflexivity|]. split; [reflexivity|].
  split; [|split].
  - do 3 right. left.
  - do 4 right. left.
  - left.
Qed.

(** ** Updating *)

Lemma replaced_at_insert {A} (m : gmap ObjectId A) id x :
  is_Some (m !! id) → replaced_at m (<[id:=x]> m) id x.
Proof.
  intros Hsome. split; [|split].
  - apply lookup_insert_eq.
  - by apply dom_insert_lookup_L.
  - intros j Hne. by apply lookup_insert_ne.
Qed.

Lemma genre_update_post_valid st (req : Request GenreBody) :
  (3 ≤ char_count (trim (toString (name (req_body req)))))%nat →
  is_Some (genres st !! params_id req) →
  genre_update_post req (on_store st) =
    {| db := with_collection GenreModel
               (<[params_id req := sanitized_genre (req_body req)]> (genres st)) st;
       calls := [Redirect (genre_url (params_id req))] |}.
Proof.
  intros Hlen [g0 Hg0]. unfold genre_update_post.
  rewrite genre_validators_eq, (too_short_nil _ _ _ _ Hlen).
  run_handler. by rewrite Hg0.
Qed.

Lemma book_update_post_valid st (req : Request BookBody) :
  filled (title (req_body req)) → filled (author (req_body req)) →
  filled (summary (req_body req)) → filled (isbn (req_body req)) →
  is_Some (books st !! params_id req) →
  book_update_post req (on_store st) =
    {| db := with_collection BookModel
               (<[params_id req := sanitized_book (req_body req)]> (books st)) st;
       calls := [Redirect (book_url (params_id req))] |}.
Proof.
  intros H1 H2 H3 H4 [b0 Hb0]. unfold book_update_post.
  rewrite book_validators_eq.
  rewrite (too_short_nil _ _ _ _ H1), (too_short_nil _ _ _ _ H2),
    (too_short_nil _ _ _ _ H3), (too_short_nil _ _ _ _ H4).
  run_handler. by rewrite Hb0.
Qed.

Lemma not_a_date_nil v : date_ok v → not_a_date v = [].
Proof.
  unfold not_a_date. intros [H|H].
  - by rewrite H.
  - rewrite H. by destruct (falsy v).
Qed.

Lemma bookinstance_update_post_valid st (req : Request BookInstanceBody) :
  filled (book (req_body req)) → filled (imprint (req_body req)) →
  date_ok (due_back (req_body req)) →
  is_Some (bookinstances st !! params_id req) →
  bookinstance_update_post req (on_store st) =
    {| db := with_collection BookInstanceModel
               (<[params_id req := sanitized_bookinstance (req_body req)]>
                  (bookinstances st)) st;
       calls := [Redirect (bookinstance_url (params_id req))] |}.
Proof.
  intros H1 H2 H3 [i0 Hi0]. unfold bookinstance_update_post.
  rewrite bookinstance_validators_eq, (too_short_nil _ _ _ _ H1),
    (too_short_nil _ _ _ _ H2), (not_a_date_nil _ H3).
  run_handler. by rewrite Hi0.
Qed.

Lemma bookinstance_create_post_valid st oid (req : Request BookInstanceBody) :
  filled (book (req_body req)) → filled (imprint (req_body req)) →
  date_ok (due_back (req_body req)) →
  bookinstances st !! oid = None →
  bookinstance_create_post oid req (on_store st) =
    {| db := with_collection BookInstanceModel
               (<[oid := sanitized_bookinstance (req_body req)]>
                  (bookinstances st)) st;
       calls := [Redirect (bookinstance_url oid)] |}.
Proof.
  intros H1 H2 H3 Hfresh. unfold bookinstance_create_post.
  rewrite bookinstance_validators_eq, (too_short_nil _ _ _ _ H1),
    (too_short_nil _ _ _ _ H2), (not_a_date_nil _ H3).
  run_handler. by rewrite Hfresh.
Qed.

(** C5: every [update_post] keeps the identity of the entity.  For an id
    under which an entity is stored and a form that passes validation,
    after [genre_update_post], [book_update_post] and
    [bookinstance_update_post] the document stored under that same id has
    its fields replaced by the sanitized values of the form, the
    collection holds the same ids as before with every other document
    unchanged, the other collections are unchanged, and the response is
    the redirect to the detail URL of that id. *)
Theorem update_post_preserves_id st id :
  (∀ b : GenreBody,
     is_Some (genres st !! id) →
     (3 ≤ char_count (trim (toString (name b))))%nat →
     let w := genre_update_post {| params_id := id; req_body := b |} (on_store st) in
     replaced_at (genres st) (genres (db w)) id (sanitized_genre b) ∧
     books (db w) = books st ∧ bookinstances (db w) = bookinstances st ∧
     authors (db w) = authors st ∧
     calls w = [Redirect (genre_url id)]) ∧
  (∀ b : BookBody,
     is_Some (books st !! id) →
     filled (title b) → filled (author b) → filled (summary b) → filled (isbn b) →
     let w := book_update_post {| params_id := id; req_body := b |} (on_store st) in
     replaced_at (books st) (books (db w)) id (sanitized_book b) ∧
     genres (db w) = genres st ∧ bookinstances (db w) = bookinstances st ∧
     authors (db w) = authors st ∧
     calls w = [Redirect (book_url id)]) ∧
  (∀ b : BookInstanceBody,
     is_Some (bookinstances st !! id) →
     filled (book b) → filled (imprint b) → date_ok (due_back b) →
     let w := bookinstance_update_post {| params_id := id; req_body := b |}
                (on_store st) in
     replaced_at (bookinstances st) (bookinstances (db w)) id
       (sanitized_bookinstance b) ∧
     genres (db w) = genres st ∧ books (db w) = books st ∧
     authors (db w) = authors st ∧
     calls w = [Redirect (bookinstance_url id)]).
Proof.
  split; [|split].
  - intros b Hsome Hlen w. subst w.
    rewrite genre_update_post_valid by done. simpl.
    split; [by apply replaced_at_insert|done].
  - intros b Hsome H1 H2 H3 H4 w. subst w.
    rewrite book_update_post_valid by done. simpl.
    split; [by apply replaced_at_insert|done].
  - intros b Hsome H1 H2 H3 w. subst w.
    rewrite bookinstance_update_post_valid by done. simpl.
    split; [by apply replaced_at_insert|done].
Qed.

(** ** The fields of a book instance *)




(** C8: the status of a book instance is not checked.  Whatever is
    submitted as [status], validation records no error for the field
    [status] and the field becomes the escaped string; when the form has
    no error, [bookinstance_create_post] stores the new instance, and
    [bookinstance_update_post] the instance of the URL, with that escaped
    string as its status, whether or not it is one of the four statuses
    of the enumeration. *)
Theorem bookinstance_status_unchecked st oid (req : Request BookInstanceBody) :
  let escaped := escape (toString (status (req_body req))) in
  (∀ e, e ∈ (bookinstance_validators req).2 → err_path e ≠ "status") ∧
  status (req_body (bookinstance_validators req).1) = Str escaped ∧
  ((bookinstance_validators req).2 = [] →
     (bookinstances st !! oid = None →
        ∃ inst, bookinstances (db (bookinstance_create_post oid req (on_store st)))
                  !! oid = Some inst ∧ bi_status inst = escaped) ∧
     (is_Some (bookinstances st !! params_id req) →
        ∃ inst, bookinstances (db (bookinstance_update_post req (on_store st)))
                  !! params_id req = Some inst ∧ bi_status inst = escaped)).
Proof.
  simpl. split; [|split].
  - rewrite bookinstance_validators_eq; simpl. intros e.
    rewrite !elem_of_app. intros [He|[He|He]].
    + by rewrite (too_short_path _ _ _ _ _ He).
    + by rewrite (too_short_path _ _ _ _ _ He).
    + unfold not_a_date in He.
      destruct (falsy _); [by apply not_elem_of_nil in He|].
      destruct (isISO8601 _); [by apply not_elem_of_nil in He|].
      by apply list_elem_of_singleton in He as ->.
  - by rewrite bookinstance_validators_eq.
  - intros Hnil. split.
    + intros Hfresh. unfold bookinstance_create_post.
      destruct (bookinstance_validators req) as [req' errors] eqn:Hv.
      simpl in Hnil. subst errors. run_handler. rewrite Hfresh; simpl.
      eexists. split; [apply lookup_insert_eq|].
      rewrite bookinstance_validators_eq in Hv. by injection Hv as <- _.
    + intros [i0 Hi0]. unfold bookinstance_update_post.
      destruct (bookinstance_validators req) as [req' errors] eqn:Hv.
      simpl in Hnil. subst errors.
      rewrite bookinstance_validators_eq in Hv. injection Hv as <- _.
      run_handler. rewrite Hi0; simpl.
      eexists. split; [apply lookup_insert_eq|done].
Qed.

(** ** The genres of a book *)

Lemma book_create_post_valid st oid (req : Request BookBody) :
  filled (title (req_body req)) → filled (author (req_body req)) →
  filled (summary (req_body req)) → filled (isbn (req_body req)) →
  books st !! oid = None →
  book_create_post oid req (on_store st) =
    {| db := with_collection BookModel
               (<[oid := sanitized_book (req_body req)]> (books st)) st;
       calls := [Redirect (book_url oid)] |}.
Proof.
  intros H1 H2 H3 H4 Hfresh. unfold book_create_post.
  rewrite book_validators_eq.
  rewrite (too_short_nil _ _ _ _ H1), (too_short_nil _ _ _ _ H2),
    (too_short_nil _ _ _ _ H3), (too_short_nil _ _ _ _ H4).
  run_handler. by rewrite Hfresh.
Qed.

Lemma book_post_rerender st oid (req : Request BookBody) :
  (book_validators (normalize_genre req)).2 ≠ [] →
  (∃ locals,
     book_create_post oid req (on_store st) =
       {| db := st; calls := [Render "book_form" locals] |} ∧
     ("book", VBook (oid, sanitized_book (req_body req))) ∈ locals) ∧
  (∃ locals,
     book_update_post req (on_store st) =
       {| db := st; calls := [Render "book_form" locals] |} ∧
     ("book", VBook (params_id req, sanitized_book (req_body req))) ∈ locals).
Proof.
  rewrite book_validators_eq. simpl. intros Hne.
  destruct (too_short _ _ _ _ ++ _) as [|e errors] eqn:E; [done|].
  split.
  - unfold book_create_post. rewrite book_validators_eq. simpl. rewrite E.
    unfold render_book_form. run_handler.
    eexists. split; [reflexivity|]. do 3 right. left.
  - unfold book_update_post. rewrite book_validators_eq. simpl. rewrite E.
    unfold render_book_form. run_handler.
    eexists. split; [reflexivity|]. do 3 right. left.
Qed.

(** C7: in [book_create_post] and [book_update_post] the field [genre] is
    made a sequence before validation.  The first middleware turns an absent
    field into the empty sequence and a single value into the sequence of
    that one value, leaves a sequence as it is and touches nothing else.
    Both handlers work on that sequence: its elements, escaped one by one by
    the validation that follows, are the genres of the book that
    [book_create_post] stores under the new id and [book_update_post] under
    the id of the URL when the form is valid, and of the book both send
    back with the form when it is not.  A single value comes out escaped,
    which the chain on the elements does only to a sequence. *)
Theorem genre_normalized_to_sequence st oid (req : Request BookBody) :
  let seq := match genre (req_body req) with
             | GUndefined => []
             | GScalar v => [v]
             | GArray l => l
             end in
  genre (req_body (normalize_genre req)) = GArray seq ∧
  (∀ l, genre (req_body req) = GArray l → normalize_genre req = req) ∧
  (params_id (normalize_genre req) = params_id req ∧
   title (req_body (normalize_genre req)) = title (req_body req) ∧
   author (req_body (normalize_genre req)) = author (req_body req) ∧
   summary (req_body (normalize_genre req)) = summary (req_body req) ∧
   isbn (req_body (normalize_genre req)) = isbn (req_body req)) ∧
  genre (req_body (book_validators (normalize_genre req)).1) = GArray (map escape seq) ∧
  (filled (title (req_body req)) → filled (author (req_body req)) →
   filled (summary (req_body req)) → filled (isbn (req_body req)) →
   (books st !! oid = None →
      let w := book_create_post oid req (on_store st) in
      calls w = [Redirect (book_url oid)] ∧
      ∃ b, books (db w) !! oid = Some b ∧ book_genre b = map escape seq) ∧
   (is_Some (books st !! params_id req) →
      let w := book_update_post req (on_store st) in
      calls w = [Redirect (book_url (params_id req))] ∧
      ∃ b, books (db w) !! params_id req = Some b ∧ book_genre b = map escape seq)) ∧
  ((book_validators (normalize_genre req)).2 ≠ [] →
   (∃ locals b,
      book_create_post oid req (on_store st) =
        {| db := st; calls := [Render "book_form" locals] |} ∧
      ("book", VBook (oid, b)) ∈ locals ∧ book_genre b = map escape seq) ∧
   (∃ locals b,
      book_update_post req (on_store st) =
        {| db := st; calls := [Render "book_form" locals] |} ∧
      ("book", VBook (params_id req, b)) ∈ locals ∧ book_genre b = map escape seq)).
Proof.
  intros seq.
  assert (Hseq : cast_refs (genre (req_body req)) = seq)
    by (subst seq; by destruct (genre (req_body req))).
  split; [|split; [|split; [|split; [|split]]]].
  - by rewrite normalize_genre_eq, <- Hseq.
  - intros l H. unfold normalize_genre. by rewrite H.
  - by rewrite normalize_genre_eq.
  - by rewrite book_validators_eq, <- Hseq.
  - intros H1 H2 H3 H4. split.
    + intros Hfresh. simpl. rewrite book_create_post_valid by done. simpl.
      split; [done|]. exists (sanitized_book (req_body req)).
      split; [apply lookup_insert_eq|]. by rewrite <- Hseq.
    + intros Hsome. simpl. rewrite book_update_post_valid by done. simpl.
      split; [done|]. exists (sanitized_book (req_body req)).
      split; [apply lookup_insert_eq|]. by rewrite <- Hseq.
  - intros Hne.
    destruct (book_post_rerender st oid req Hne)
      as [(l1 & Hrun1 & Hin1) (l2 & Hrun2 & Hin2)].
    split.
    + exists l1, (sanitized_book (req_body req)). by rewrite <- Hseq.
    + exists l2, (sanitized_book (req_body req)). by rewrite <- Hseq.
Qed.

End Properties.

(** * The handlers on the sample catalogue *)

Section Examples.
Import Sample.

(** "Fantasy", then "fantasy", then "FANTASY": one record, one URL. *)
Example fantasy_created_once :
  let w1 := genre_create_post g1 (genre_form unused "Fantasy") (on_store empty_store) in
  let w2 := genre_create_post g2 (genre_form unused "fantasy") (on_store (db w1)) in
  let w3 := genre_create_post g3 (genre_form unused " FANTASY ") (on_store (db w2)) in
  calls w1 = [Redirect ("/catalog/genre/" +:+ g1)] ∧
  calls w2 = [Redirect ("/catalog/genre/" +:+ g1)] ∧
  calls w3 = [Redirect ("/catalog/genre/" +:+ g1)] ∧
  map_to_list (genres (db w3)) = [(g1, {| genre_name := "Fantasy" |})].
Proof. vm_compute. repeat split. Qed.

(** A name of two characters is sent back with the form. *)
Example short_name_rejected :
  genre_create_post g3 (genre_form unused " ab ") (on_store library) =
    {| db := library;
       calls := [Render "genre_form"
                   [("title", VText "ジャンル作成");
                    ("genre", VGenre (Some (g3, {| genre_name := "ab" |})));
                    ("errors", VErrors
                       [{| err_path := "name";
                           err_msg := "ジャンル名は3文字以上必要です";
                           err_value := Str "ab" |}])]] |}.
Proof. vm_compute. repeat split. Qed.

(** Two characters are too few, however many bytes they take. *)
Example two_characters_rejected :
  genre_create_post g3 (genre_form unused "小説") (on_store library) =
    {| db := library;
       calls := [Render "genre_form"
                   [("title", VText "ジャンル作成");
                    ("genre", VGenre (Some (g3, {| genre_name := "小説" |})));
                    ("errors", VErrors
                       [{| err_path := "name";
                           err_msg := "ジャンル名は3文字以上必要です";
                           err_value := Str "小説" |}])]] |}.
Proof. vm_compute. repeat split. Qed.

(** The confirmation page of a genre that is not stored. *)
Example genre_delete_get_unknown :
  calls (genre_delete_get (get zz) (on_store library)) =
    [Redirect "/catalog/genres";
     Render "genre_delete"
       [("title", VText "ジャンル削除"); ("genre", VGenre None);
        ("genre_books", VBookSummaries [])]].
Proof. vm_compute. repeat split. Qed.

(** The same request for a stored genre renders the page and nothing else. *)
Example genre_delete_get_known :
  calls (genre_delete_get (get g2) (on_store library)) =
    [Render "genre_delete"
       [("title", VText "ジャンル削除");
        ("genre", VGenre (Some (g2, {| genre_name := "Poetry" |})));
        ("genre_books", VBookSummaries [])]].
Proof. vm_compute. repeat split. Qed.

(** Updating a book whose id is not stored ends in the error handler. *)
Example book_update_post_unknown :
  book_update_post (book_form zz "Roverandom" GUndefined) (on_store library) =
    {| db := library; calls := [Next (TypeError "thebook is null")] |}.
Proof. vm_compute. repeat split. Qed.

End Examples.

(** * The theorems at the sample catalogue *)

Section Witnesses.
Import Sample.

Lemma genre_create_post_idempotent_witness :
  (db (genre_create_post g9 (genre_form unused " fantasy ") (on_store library)) = library ∧
   ∃ id g, genres library !! id = Some g ∧
           collation_eq (genre_name g) "fantasy" = true ∧
           calls (genre_create_post g9 (genre_form unused " fantasy ") (on_store library)) =
             [Redirect (genre_url id)]) ∧
  (db (genre_create_post g9 (genre_form unused "Sci-Fi") (on_store library)) =
     with_collection GenreModel
       (<[g9 := {| genre_name := "Sci-Fi" |}]> (genres library)) library ∧
   calls (genre_create_post g9 (genre_form unused "Sci-Fi") (on_store library)) =
     [Redirect ("/catalog/genre/" +:+ g9)]).
Proof.
  split.
  - assert (Hlen : (3 ≤ char_count (trim (toString (Str " fantasy "))))%nat)
      by (vm_compute; lia).
    destruct (genre_create_post_idempotent library g9
                (genre_form unused " fantasy ") Hlen) as [Hfound _].
    apply Hfound.
    exists g1, {| genre_name := "Fantasy" |}. split; reflexivity.
  - assert (Hlen : (3 ≤ char_count (trim (toString (Str "Sci-Fi"))))%nat)
      by (vm_compute; lia).
    destruct (genre_create_post_idempotent library g9
                (genre_form unused "Sci-Fi") Hlen) as [_ Hnew].
    apply Hnew.
    + apply (bool_decide_unpack (map_Forall _ (genres library))).
      vm_compute. exact I.
    + reflexivity.
Defined.

Lemma delete_post_blocked_by_dependents_witness :
  (∃ insts,
     (i1, copy) ∈ insts ∧
     book_delete_post (delete_form b1 b1) (on_store library) =
       {| db := library;
          calls := [Render "book_delete"
                      [("title", VText "書籍削除");
                       ("book", VPopulatedBook
                                  (Some (populate_book library (b1, hobbit))));
                       ("book_instances", VBookInstances insts)]] |}) ∧
  (∃ bks,
     (b1, ("The Hobbit", "There and back again")) ∈ bks ∧
     genre_delete_post (delete_form g1 g1) (on_store library) =
       {| db := library;
          calls := [Render "genre_delete"
                      [("title", VText "ジャンル削除");
                       ("genre", VGenre (Some (g1, {| genre_name := "Fantasy" |})));
                       ("genre_books", VBookSummaries bks)]] |}) ∧
  (books (db (book_delete_post (delete_form b2 b2) (on_store library))) !! b2 = None ∧
   calls (book_delete_post (delete_form b2 b2) (on_store library)) =
     [Redirect "/catalog/books"]) ∧
  (genres (db (genre_delete_post (delete_form g2 g2) (on_store library))) !! g2 = None ∧
   calls (genre_delete_post (delete_form g2 g2) (on_store library)) =
     [Redirect "/catalog/genres"]).
Proof.
  split; [|split; [|split]].
  - destruct (delete_post_blocked_by_dependents library b1 (delete_form b1 b1)
                eq_refl) as (Hbook & _ & _).
    destruct (Hbook hobbit i1 copy eq_refl eq_refl eq_refl)
      as (insts & Hin & _ & Hrun).
    exists insts. split; [exact Hin|exact Hrun].
  - destruct (delete_post_blocked_by_dependents library g1 (delete_form g1 g1)
                eq_refl) as (_ & Hgenre & _).
    apply (Hgenre {| genre_name := "Fantasy" |} b1 hobbit eq_refl eq_refl).
    vm_compute. left.
  - destruct (delete_post_blocked_by_dependents library b2 (delete_form b2 b2)
                eq_refl) as (_ & _ & Hfree).
    destruct (Hfree eq_refl) as [Hbook _].
    destruct (Hbook silmarillion eq_refl) as (Hgone & _ & Hcalls);
      [|split; [exact Hgone|exact Hcalls]].
    apply (bool_decide_unpack (map_Forall _ (bookinstances library))).
    vm_compute. exact I.
  - destruct (delete_post_blocked_by_dependents library g2 (delete_form g2 g2)
                eq_refl) as (_ & _ & Hfree).
    destruct (Hfree eq_refl) as [_ Hgenre].
    destruct (Hgenre {| genre_name := "Poetry" |} eq_refl) as (Hgone & _ & Hcalls);
      [|split; [exact Hgone|exact Hcalls]].
    apply (bool_decide_unpack (map_Forall _ (books library))).
    vm_compute. exact I.
Defined.

Lemma delete_get_missing_id_witness :
  (∃ bks, calls (genre_delete_get (get zz) (on_store library)) =
     [Redirect "/catalog/genres";
      Render "genre_delete"
        [("title", VText "ジャンル削除"); ("genre", VGenre None);
         ("genre_books", VBookSummaries bks)]]) ∧
  (∃ insts, calls (book_delete_get (get zz) (on_store library)) =
     [Redirect "/catalog/books";
      Render "book_delete"
        [("title", VText "書籍削除"); ("book", VPopulatedBook None);
         ("book_instances", VBookInstances insts)]]) ∧
  calls (bookinstance_delete_get (get zz) (on_store library)) =
    [Redirect "/catalog/bookinstances";
     Render "bookinstance_delete"
       [("title", VText "資料削除");
        ("bookinstance", VPopulatedBookInstance None)]].
Proof.
  destruct (delete_get_missing_id library zz) as (Hgenre & Hbook & Hcopy).
  split; [|split].
  - destruct (Hgenre eq_refl) as (_ & _ & _ & Hcalls). exact Hcalls.
  - destruct (Hbook eq_refl) as (_ & _ & _ & Hcalls). exact Hcalls.
  - destruct (Hcopy eq_refl) as (_ & _ & Hcalls). exact Hcalls.
Defined.

Lemma book_create_post_empty_title_witness :
  db (book_create_post b9 (book_form unused "   " (GScalar g1)) (on_store library)) =
    library ∧
  ∃ locals errors,
    calls (book_create_post b9 (book_form unused "   " (GScalar g1))
             (on_store library)) = [Render "book_form" locals] ∧
    ("errors", VErrors errors) ∈ locals ∧
    {| err_path := "title"; err_msg := "タイトルは必須です";
       err_value := Str EmptyString |} ∈ errors.
Proof.
  assert (Hempty : trim (toString (Str "   ")) = EmptyString) by reflexivity.
  destruct (book_create_post_empty_title library b9
              (book_form unused "   " (GScalar g1)) Hempty)
    as (Hdb & locals & errors & Hcalls & _ & _ & Hlocals & Herrors).
  split; [exact Hdb|]. exists locals, errors.
  split; [exact Hcalls|]. split; [exact Hlocals|exact Herrors].
Defined.

Lemma update_post_preserves_id_witness :
  (genres (db (genre_update_post (genre_form g2 " Verse ") (on_store library)))
     !! g2 = Some {| genre_name := "Verse" |} ∧
   dom (genres (db (genre_update_post (genre_form g2 " Verse ") (on_store library)))) =
     dom (genres library)) ∧
  (books (db (book_update_post (book_form b2 "Roverandom" (GScalar g2))
                (on_store library))) !! b2 =
     Some {| book_title := "Roverandom"; book_author := a1;
             book_summary := "A tale"; book_isbn := "12345";
             book_genre := [g2] |} ∧
   dom (books (db (book_update_post (book_form b2 "Roverandom" (GScalar g2))
                     (on_store library)))) = dom (books library)) ∧
  (bookinstances (db (bookinstance_update_post
                        (copy_form i1 "Loaned" (Str "2024-02-29"))
                        (on_store library))) !! i1 =
     Some {| bi_book := b1; bi_imprint := "Folio, 1979"; bi_status := "Loaned";
             bi_due_back := Some 1709164800000%Z |} ∧
   dom (bookinstances (db (bookinstance_update_post
                             (copy_form i1 "Loaned" (Str "2024-02-29"))
                             (on_store library)))) = dom (bookinstances library)).
Proof.
  split; [|split].
  - destruct (update_post_preserves_id library g2) as (Hgenre & _ & _).
    destruct (Hgenre {| name := Str " Verse " |}) as ((Hid & Hdom & _) & _).
    + exists {| genre_name := "Poetry" |}. reflexivity.
    + vm_compute. lia.
    + split; [exact Hid|exact Hdom].
  - destruct (update_post_preserves_id library b2) as (_ & Hbook & _).
    destruct (Hbook (req_body (book_form b2 "Roverandom" (GScalar g2))))
      as ((Hid & Hdom & _) & _).
    + exists silmarillion. reflexivity.
    + vm_compute. lia.
    + vm_compute. lia.
    + vm_compute. lia.
    + vm_compute. lia.
    + split; [exact Hid|exact Hdom].
  - destruct (update_post_preserves_id library i1) as (_ & _ & Hcopy).
    destruct (Hcopy (req_body (copy_form i1 "Loaned" (Str "2024-02-29"))))
      as ((Hid & Hdom & _) & _).
    + exists copy. reflexivity.
    + vm_compute. lia.
    + vm_compute. lia.
    + right. reflexivity.
    + split; [exact Hid|exact Hdom].
Defined.



Lemma genre_normalized_to_sequence_witness :
  genre (req_body (normalize_genre (book_form unused "Roverandom" GUndefined))) =
    GArray [] ∧
  normalize_genre (book_form unused "Roverandom" (GArray [g1; g2])) =
    book_form unused "Roverandom" (GArray [g1; g2]) ∧
  (∃ b, books (db (book_create_post b9 (book_form unused "Roverandom" (GScalar "a<b"))
                     (on_store library))) !! b9 = Some b ∧
        book_genre b = ["a&lt;b"]) ∧
  (∃ b, books (db (book_update_post (book_form b2 "Roverandom" (GScalar "a<b"))
                     (on_store library))) !! b2 = Some b ∧
        book_genre b = ["a&lt;b"]) ∧
  (∃ locals b,
     book_create_post b9 (book_form unused "  " (GScalar "a<b")) (on_store library) =
       {| db := library; calls := [Render "book_form" locals] |} ∧
     ("book", VBook (b9, b)) ∈ locals ∧ book_genre b = ["a&lt;b"]).
Proof.
  split; [|split; [|split; [|split]]].
  - apply (genre_normalized_to_sequence library b9
             (book_form unused "Roverandom" GUndefined)).
  - destruct (genre_normalized_to_sequence library b9
                (book_form unused "Roverandom" (GArray [g1; g2])))
      as (_ & Harray & _).
    apply (Harray [g1; g2]). reflexivity.
  - destruct (genre_normalized_to_sequence library b9
                (book_form unused "Roverandom" (GScalar "a<b")))
      as (_ & _ & _ & _ & Hvalid & _).
    destruct Hvalid as [Hcreate _]; [vm_compute; lia..|].
    destruct (Hcreate eq_refl) as [_ Hstored]. exact Hstored.
  - destruct (genre_normalized_to_sequence library b9
                (book_form b2 "Roverandom" (GScalar "a<b")))
      as (_ & _ & _ & _ & Hvalid & _).
    destruct Hvalid as [_ Hupdate]; [vm_compute; lia..|].
    destruct Hupdate as [_ Hstored]; [exists silmarillion; reflexivity|].
    exact Hstored.
  - destruct (genre_normalized_to_sequence library b9
                (book_form unused "  " (GScalar "a<b")))
      as (_ & _ & _ & _ & _ & Hinvalid).
    destruct Hinvalid as [Hcreate _]; [discriminate|].
    exact Hcreate.
Defined.

Lemma bookinstance_status_unchecked_witness :
  (∃ inst, bookinstances
             (db (bookinstance_create_post i9
                    (copy_form unused "Lost <in> the post" Undefined)
                    (on_store library))) !! i9 = Some inst ∧
           bi_status inst = "Lost &lt;in&gt; the post") ∧
  (∃ inst, bookinstances
             (db (bookinstance_update_post
                    (copy_form i1 "Lost <in> the post" Undefined)
                    (on_store library))) !! i1 = Some inst ∧
           bi_status inst = "Lost &lt;in&gt; the post").
Proof.
  split.
  - destruct (bookinstance_status_unchecked library i9
                (copy_form unused "Lost <in> the post" Undefined))
      as (_ & _ & Hstored).
    destruct (Hstored eq_refl) as [Hcreate _]. apply Hcreate. reflexivity.
  - destruct (bookinstance_status_unchecked library i9
                (copy_form i1 "Lost <in> the post" Undefined))
      as (_ & _ & Hstored).
    destruct (Hstored eq_refl) as [_ Hupdate]. apply Hupdate.
    exists copy. reflexivity.
Defined.

Lemma delete_post_deletes_body_id_witness :
  (books (db (book_delete_post (delete_form b2 b1) (on_store library))) !! b1 = None ∧
   books (db (book_delete_post (delete_form b2 b1) (on_store library))) !! b2 =
     Some silmarillion ∧
   bookinstances (db (book_delete_post (delete_form b2 b1) (on_store library))) =
     bookinstances library) ∧
  (genres (db (genre_delete_post (delete_form g2 g1) (on_store library))) !! g1 = None ∧
   genres (db (genre_delete_post (delete_form g2 g1) (on_store library))) !! g2 =
     Some {| genre_name := "Poetry" |} ∧
   books (db (genre_delete_post (delete_form g2 g1) (on_store library))) =
     books library).
Proof.
  split.
  - destruct (delete_post_deletes_body_id library (delete_form b2 b1))
      as [Hbook _]; [discriminate|].
    destruct Hbook as (_ & Hgone & Hkept & _ & Hcopies & _).
    + apply (bool_decide_unpack (map_Forall _ (bookinstances library))).
      vm_compute. exact I.
    + split; [exact Hgone|]. split; [exact Hkept|exact Hcopies].
  - destruct (delete_post_deletes_body_id library (delete_form g2 g1))
      as [_ Hgenre]; [discriminate|].
    destruct Hgenre as (_ & Hgone & Hkept & Hbooks & _).
    + apply (bool_decide_unpack (map_Forall _ (books library))).
      vm_compute. exact I.
    + split; [exact Hgone|]. split; [exact Hkept|exact Hbooks].
Defined.

Lemma bookinstance_delete_post_unconditional_witness :
  calls (bookinstance_delete_post (delete_form unused i1) (on_store library)) =
    calls (bookinstance_delete_post (delete_form unused zz) (on_store library)) ∧
  bookinstances (db (bookinstance_delete_post (delete_form unused i1) (on_store library)))
    !! i1 = None ∧
  db (bookinstance_delete_post (delete_form unused zz) (on_store library)) = library.
Proof.
  destruct (bookinstance_delete_post_unconditional library (delete_form unused i1))
    as (Hcalls1 & _ & Hdel & _).
  destruct (bookinstance_delete_post_unconditional library (delete_form unused zz))
    as (Hcalls2 & _ & _ & Hsame & _).
  split; [rewrite Hcalls1, Hcalls2; reflexivity|]. split.
  - rewrite Hdel. apply lookup_delete_eq.
  - apply Hsame. reflexivity.
Defined.

End Witnesses.

(** * Properties of the pages that only read *)

(** Unfolds the operations of a page down to the store and the log. *)
Ltac run_page :=
  unfold asyncPage, reading, page_render, next_error, page_log, page_throw, on_page;
  unfold countDocuments, populate_all;
  unfold mbind, Page_bind, mret, Page_ret;
  run_handler.

Lemma length_collection {A} (m : gmap ObjectId A) : length (map_to_list m) = size m.
Proof. apply length_map_to_list. Qed.

Lemma filter_all {A} (l : list A) : List.filter (λ _, true) l = l.
Proof. induction l as [|x l IH]; simpl; by rewrite ?IH. Qed.

#[global] Instance field_le_total {A} (field : A → string) : Total (field_le field).
Proof. intros x y. unfold field_le. apply String.leb_total. Qed.

Lemma sort_asc_Sorted {A} (field : A → string) (l : list (Doc A)) :
  Sorted (field_le field) (sort_asc field l).
Proof. unfold sort_asc. apply Sorted_merge_sort, _. Qed.

Lemma sort_asc_Permutation {A} (field : A → string) (l : list (Doc A)) :
  sort_asc field l ≡ₚ l.
Proof. unfold sort_asc. apply merge_sort_Permutation. Qed.

Lemma elem_of_sort_asc_all {A} (field : A → string) (m : gmap ObjectId A) (d : Doc A) :
  d ∈ sort_asc field (map_to_list m) ↔ m !! d.1 = Some d.2.
Proof.
  rewrite sort_asc_Permutation. destruct d as [i a]; simpl.
  apply elem_of_map_to_list.
Qed.

Lemma NoDup_sort_asc_all {A} (field : A → string) (m : gmap ObjectId A) :
  NoDup (sort_asc field (map_to_list m)).
Proof. rewrite sort_asc_Permutation. apply NoDup_map_to_list. Qed.

Section PageProperties.
Context `{L : Lib}.

Lemma genre_detail_missing st id :
  genres st !! id = None →
  genre_detail {| params_id := id; req_body := () |} (on_page st) =
    {| page_db := st; page_calls := [NextError 404 "ジャンルが見つかりません"] |}.
Proof.
  intros Hnone. unfold genre_detail, books_in_genre. run_page. by rewrite Hnone.
Qed.

Lemma book_detail_missing st id :
  books st !! id = None →
  book_detail {| params_id := id; req_body := () |} (on_page st) =
    {| page_db := st; page_calls := [NextError 404 "書籍が見つかりません"] |}.
Proof.
  intros Hnone. unfold book_detail, instances_of. run_page. by rewrite Hnone.
Qed.

Lemma bookinstance_detail_missing st id :
  bookinstances st !! id = None →
  bookinstance_detail {| params_id := id; req_body := () |} (on_page st) =
    {| page_db := st; page_calls := [NextError 404 "資料が見つかりません"] |}.
Proof.
  intros Hnone. unfold bookinstance_detail. run_page. by rewrite Hnone.
Qed.

Lemma genre_detail_stored st id g :
  genres st !! id = Some g →
  genre_detail {| params_id := id; req_body := () |} (on_page st) =
    {| page_db := st;
       page_calls := [RenderPage "genre_detail"
                        [("title", Known (VText "ジャンル詳細"));
                         ("genre", Known (VGenre (Some (id, g))));
                         ("genre_books", Known (VBookSummaries
                            (map (λ d : Doc Book,
                                    (d.1, (book_title d.2, book_summary d.2)))
                               (List.filter
                                  (λ d : Doc Book, bool_decide (id ∈ book_genre d.2))
                                  (map_to_list (books st))))))]] |}.
Proof.
  intros Hg. unfold genre_detail, books_in_genre. run_page. by rewrite Hg.
Qed.

(** X1: the detail pages answer an id that is not stored with an error.
    [genre_detail], [book_detail] and [bookinstance_detail] make one call,
    [next] with an error of status 404 and the message of the entity; no
    page is rendered and the store is the one before. *)
Theorem detail_missing_id st id :
  let req := {| params_id := id; req_body := () |} in
  (genres st !! id = None →
     genre_detail req (on_page st) =
       {| page_db := st; page_calls := [NextError 404 "ジャンルが見つかりません"] |}) ∧
  (books st !! id = None →
     book_detail req (on_page st) =
       {| page_db := st; page_calls := [NextError 404 "書籍が見つかりません"] |}) ∧
  (bookinstances st !! id = None →
     bookinstance_detail req (on_page st) =
       {| page_db := st; page_calls := [NextError 404 "資料が見つかりません"] |}).
Proof.
  simpl. split; [|split].
  - apply genre_detail_missing.
  - apply book_detail_missing.
  - apply bookinstance_detail_missing.
Qed.

(** X2: the update forms answer an id that is not stored with the same
    error: [genre_update_get], [book_update_get] and
    [bookinstance_update_get] make one call, [next] with status 404, render
    no form and leave the store as it was. *)
Theorem update_get_missing_id st id :
  let req := {| params_id := id; req_body := () |} in
  (genres st !! id = None →
     genre_update_get req (on_page st) =
       {| page_db := st; page_calls := [NextError 404 "ジャンルが見つかりません"] |}) ∧
  (books st !! id = None →
     book_update_get req (on_page st) =
       {| page_db := st; page_calls := [NextError 404 "書籍が見つかりません"] |}) ∧
  (bookinstances st !! id = None →
     bookinstance_update_get req (on_page st) =
       {| page_db := st; page_calls := [NextError 404 "資料が見つかりません"] |}).
Proof.
  simpl. split; [|split]; intros Hnone.
  - unfold genre_update_get. run_page. by rewrite Hnone.
  - unfold book_update_get. run_page. by rewrite Hnone.
  - unfold bookinstance_update_get. run_page. by rewrite Hnone.
Qed.

(** X3: the detail page of a stored genre.  [genre_detail] makes one call,
    the page [genre_detail] with the genre and a list that holds the id,
    title and summary of exactly the books whose genres include it. *)
Theorem genre_detail_found st id g :
  genres st !! id = Some g →
  ∃ bks,
    genre_detail {| params_id := id; req_body := () |} (on_page st) =
      {| page_db := st;
         page_calls := [RenderPage "genre_detail"
                          [("title", Known (VText "ジャンル詳細"));
                           ("genre", Known (VGenre (Some (id, g))));
                           ("genre_books", Known (VBookSummaries bks))]] |} ∧
    ∀ i t s, (i, (t, s)) ∈ bks ↔
             ∃ b, books st !! i = Some b ∧ id ∈ book_genre b ∧
                  t = book_title b ∧ s = book_summary b.
Proof.
  intros Hg.
  exists (map (λ d : Doc Book, (d.1, (book_title d.2, book_summary d.2)))
            (List.filter (λ d : Doc Book, bool_decide (id ∈ book_genre d.2))
               (map_to_list (books st)))).
  split.
  - by apply genre_detail_stored.
  - intros i t s. rewrite list_elem_of_In, in_map_iff. split.
    + intros ([j b] & Heq & Hin). simpl in Heq. injection Heq as ? ? ?; subst.
      apply list_elem_of_In, elem_of_find in Hin as [Hb Href]. simpl in *.
      exists b. by apply bool_decide_eq_true in Href.
    + intros (b & Hb & Href & -> & ->). exists (i, b). split; [done|].
      apply list_elem_of_In, elem_of_find. split; [done|].
      by apply bool_decide_eq_true.
Qed.

(** X4: the detail page of a stored book.  [book_detail] makes one call,
    the page [book_detail] titled with the title of the book, with the book,
    its author and genres resolved, and exactly the instances that refer to
    it.  A genre of the book that is not stored is left out of the resolved
    genres, an author that is not stored reads as [null]. *)
Theorem book_detail_found st id b :
  books st !! id = Some b →
  ∃ insts,
    book_detail {| params_id := id; req_body := () |} (on_page st) =
      {| page_db := st;
         page_calls := [RenderPage "book_detail"
                          [("title", Known (VText (book_title b)));
                           ("book", Known (VPopulatedBook
                                             (Some (populate_book st (id, b)))));
                           ("book_instances", Known (VBookInstances insts))]] |} ∧
    (∀ d, d ∈ insts ↔ bookinstances st !! d.1 = Some d.2 ∧ bi_book d.2 = id) ∧
    (∀ d, d ∈ pb_genre (populate_book st (id, b)) ↔
          d.1 ∈ book_genre b ∧ genres st !! d.1 = Some d.2) ∧
    (authors st !! book_author b = None → pb_author (populate_book st (id, b)) = None).
Proof.
  intros Hb.
  exists (List.filter (λ d : Doc BookInstance, bool_decide (bi_book d.2 = id))
            (map_to_list (bookinstances st))).
  split; [|split; [|split]].
  - unfold book_detail, instances_of. run_page. by rewrite Hb.
  - intros d. by rewrite elem_of_find, bool_decide_eq_true.
  - intros [j g]. unfold populate_book; simpl. rewrite list_elem_of_omap. split.
    + intros (r & Hr & Hg). destruct (genres st !! r) as [g'|] eqn:Hr'; [|done].
      simpl in Hg. injection Hg as <- <-. by split.
    + intros [Hin Hg]. exists j. split; [done|]. by rewrite Hg.
  - intros Hnone. unfold populate_book; simpl. by rewrite Hnone.
Qed.

(** X5: the list of genres.  [genre_list] makes one call, the page
    [genre_list] with every stored genre exactly once, in ascending order of
    the names; the store is the one before. *)
Theorem genre_list_sorted st (req : Request unit) :
  ∃ l,
    genre_list req (on_page st) =
      {| page_db := st;
         page_calls := [RenderPage "genre_list"
                          [("title", Known (VText "ジャンル一覧"));
                           ("list_genres", VGenreList l)]] |} ∧
    Sorted (λ x y : Doc Genre,
              String.leb (genre_name x.2) (genre_name y.2) = true) l ∧
    NoDup l ∧ length l = size (genres st) ∧
    ∀ d, d ∈ l ↔ genres st !! d.1 = Some d.2.
Proof.
  exists (sort_asc genre_name (map_to_list (genres st))).
  split; [|split; [|split; [|split]]].
  - unfold genre_list. run_page. by rewrite filter_all.
  - apply sort_asc_Sorted.
  - apply NoDup_sort_asc_all.
  - rewrite <- length_collection.
    apply Permutation_length, sort_asc_Permutation.
  - apply elem_of_sort_asc_all.
Qed.

(** X6: the list of books.  [book_list] makes one call, the page
    [book_list]; its list follows the stored books, each exactly once, in
    ascending order of the titles, and gives for each its id, its title and
    its author resolved, [null] when the author is not stored. *)
Theorem book_list_sorted st (req : Request unit) :
  ∃ bs : list (Doc Book),
    book_list req (on_page st) =
      {| page_db := st;
         page_calls := [RenderPage "book_list"
                          [("title", Known (VText "書籍一覧"));
                           ("book_list", VBookList
                              (map (λ b : Doc Book,
                                      (b.1, (book_title b.2,
                                             pair (book_author b.2) <$>
                                               authors st !! book_author b.2)))
                                 bs))]] |} ∧
    Sorted (λ x y : Doc Book,
              String.leb (book_title x.2) (book_title y.2) = true) bs ∧
    NoDup bs ∧ length bs = size (books st) ∧
    ∀ d, d ∈ bs ↔ books st !! d.1 = Some d.2.
Proof.
  exists (sort_asc book_title (map_to_list (books st))).
  split; [|split; [|split; [|split]]].
  - unfold book_list. run_page. by rewrite filter_all.
  - apply sort_asc_Sorted.
  - apply NoDup_sort_asc_all.
  - rewrite <- length_collection.
    apply Permutation_length, sort_asc_Permutation.
  - apply elem_of_sort_asc_all.
Qed.

(** X7: the choices of the empty forms.  [book_create_get] renders
    [book_form] with every stored author once, in ascending order of the
    family names, and every stored genre once, in ascending order of the
    names; [bookinstance_create_get] renders [bookinstance_form] with the id
    and title of every stored book once, in ascending order of the titles. *)
Theorem create_get_choices_sorted st (req : Request unit) :
  (∃ la lg,
     book_create_get req (on_page st) =
       {| page_db := st;
          page_calls := [RenderPage "book_form"
                           [("title", Known (VText "書籍登録"));
                            ("authors", Known (VAuthors la));
                            ("genres", VGenreList lg)]] |} ∧
     Sorted (λ x y : Doc Author,
               String.leb (family_name x.2) (family_name y.2) = true) la ∧
     NoDup la ∧ (∀ d, d ∈ la ↔ authors st !! d.1 = Some d.2) ∧
     Sorted (λ x y : Doc Genre,
               String.leb (genre_name x.2) (genre_name y.2) = true) lg ∧
     NoDup lg ∧ (∀ d, d ∈ lg ↔ genres st !! d.1 = Some d.2)) ∧
  (∃ bs : list (Doc Book),
     bookinstance_create_get req (on_page st) =
       {| page_db := st;
          page_calls := [RenderPage "bookinstance_form"
                           [("title", Known (VText "資料作成"));
                            ("book_list", Known (VBookTitles
                               (map (λ b : Doc Book, (b.1, book_title b.2)) bs)))]] |} ∧
     Sorted (λ x y : Doc Book,
               String.leb (book_title x.2) (book_title y.2) = true) bs ∧
     NoDup bs ∧ (∀ d, d ∈ bs ↔ books st !! d.1 = Some d.2)).
Proof.
  split.
  - exists (sort_asc family_name (map_to_list (authors st))),
           (sort_asc genre_name (map_to_list (genres st))).
    split; [unfold book_create_get; run_page; by rewrite !filter_all|].
    repeat split; try apply sort_asc_Sorted; try apply NoDup_sort_asc_all;
      by apply elem_of_sort_asc_all.
  - exists (sort_asc book_title (map_to_list (books st))).
    split; [unfold bookinstance_create_get; run_page; by rewrite filter_all|].
    repeat split; try apply sort_asc_Sorted; try apply NoDup_sort_asc_all;
      by apply elem_of_sort_asc_all.
Qed.

(** X8: the list of book instances.  [bookinstance_list] makes one call,
    the page [bookinstance_list]; its list holds every stored instance
    exactly once, and each comes with the book it refers to, [null] when that
    book is not stored. *)
Theorem bookinstance_list_all st (req : Request unit) :
  ∃ l,
    bookinstance_list req (on_page st) =
      {| page_db := st;
         page_calls := [RenderPage "bookinstance_list"
                          [("title", Known (VText "資料一覧"));
                           ("bookinstance_list", VPopulatedBookInstances l)]] |} ∧
    NoDup (map pbi_doc l) ∧ length l = size (bookinstances st) ∧
    (∀ d, d ∈ map pbi_doc l ↔ bookinstances st !! d.1 = Some d.2) ∧
    ∀ p, p ∈ l →
         pbi_book p = pair (bi_book (pbi_doc p).2) <$> books st !! bi_book (pbi_doc p).2.
Proof.
  exists (map (populate_bookinstance st) (map_to_list (bookinstances st))).
  assert (Hdocs : map pbi_doc (map (populate_bookinstance st)
                                 (map_to_list (bookinstances st))) =
                  map_to_list (bookinstances st)).
  { rewrite map_map. simpl. apply map_id. }
  split; [|split; [|split; [|split]]].
  - unfold bookinstance_list. run_page. by rewrite filter_all.
  - rewrite Hdocs. apply NoDup_map_to_list.
  - by rewrite length_map, length_collection.
  - intros [i a]. rewrite Hdocs. apply elem_of_map_to_list.
  - intros p Hp. apply list_elem_of_In, in_map_iff in Hp as (d & <- & _).
    reflexivity.
Qed.

(** X9: the counts of the home page.  [index] makes one call, the page
    [index] with the number of stored books, instances, authors and genres
    and, as the available count, the number of the stored instances whose
    status is exactly "Available": the length of a list that holds each of
    them once and nothing else.  That number never exceeds the number of
    instances and is zero exactly when no instance has that status. *)
Theorem index_counts st (req : Request unit) :
  ∃ available : list (Doc BookInstance),
    index req (on_page st) =
      {| page_db := st;
         page_calls := [RenderPage "index"
                          [("title", Known (VText "ライブラリホーム"));
                           ("book_count", VCount (size (books st)));
                           ("book_instance_count", VCount (size (bookinstances st)));
                           ("book_instance_available_count", VCount (length available));
                           ("author_count", VCount (size (authors st)));
                           ("genre_count", VCount (size (genres st)))]] |} ∧
    NoDup available ∧
    (∀ d, d ∈ available ↔
          bookinstances st !! d.1 = Some d.2 ∧ bi_status d.2 = "Available") ∧
    length available ≤ size (bookinstances st) ∧
    (length available = 0 ↔
     ∀ i inst, bookinstances st !! i = Some inst → bi_status inst ≠ "Available").
Proof.
  exists (List.filter
            (λ i : Doc BookInstance, bool_decide (bi_status i.2 = "Available"))
            (map_to_list (bookinstances st))).
  split; [|split; [|split; [|split]]].
  - unfold index. run_page. by rewrite !filter_all, !length_collection.
  - apply NoDup_ListNoDup, List.NoDup_filter, NoDup_ListNoDup, NoDup_map_to_list.
  - intros d. by rewrite elem_of_find, bool_decide_eq_true.
  - rewrite <- length_collection. apply filter_length_le.
  - rewrite length_zero_iff_nil, find_nil. split.
    + intros H i inst Hi. pose proof (H i inst Hi) as Hf. simpl in Hf.
      by apply bool_decide_eq_false in Hf.
    + intros H i inst Hi. simpl. apply bool_decide_eq_false. by apply (H i).
Qed.

(** X10: the form of a stored book.  [book_update_get] makes one call, the
    page [book_form] with the book and its author resolved, every stored
    author in ascending order of the family names, and every stored genre
    exactly once in ascending order of the names, a genre being marked as
    checked exactly when the book lists its id. *)
Theorem book_update_get_checked st id b :
  books st !! id = Some b →
  ∃ la lg,
    book_update_get {| params_id := id; req_body := () |} (on_page st) =
      {| page_db := st;
         page_calls := [RenderPage "book_form"
                          [("title", Known (VText "書籍編集"));
                           ("authors", Known (VAuthors la));
                           ("genres", Known (VGenres
                              (map (λ g : Doc Genre,
                                      (g, bool_decide (g.1 ∈ book_genre b))) lg)));
                           ("book", VBookWithAuthor (id, b)
                              (pair (book_author b) <$> authors st !! book_author b))]] |} ∧
    Sorted (λ x y : Doc Author,
              String.leb (family_name x.2) (family_name y.2) = true) la ∧
    (∀ d, d ∈ la ↔ authors st !! d.1 = Some d.2) ∧
    Sorted (λ x y : Doc Genre,
              String.leb (genre_name x.2) (genre_name y.2) = true) lg ∧
    NoDup lg ∧ (∀ d, d ∈ lg ↔ genres st !! d.1 = Some d.2).
Proof.
  intros Hb.
  exists (sort_asc family_name (map_to_list (authors st))),
         (sort_asc genre_name (map_to_list (genres st))).
  split.
  { unfold book_update_get. run_page. rewrite Hb; simpl. by rewrite !filter_all. }
  repeat split; try apply sort_asc_Sorted; try apply NoDup_sort_asc_all;
    by apply elem_of_sort_asc_all.
Qed.

(** X11: the form of a stored book instance.  When the book it refers to is
    stored, [bookinstance_update_get] makes one call, the page
    [bookinstance_form] with every stored book, the id of that book as the
    selected one and the instance with its book resolved.  When that book
    is not stored, reading its id throws: the only call passes the
    exception to [next] and no form is rendered. *)
Theorem bookinstance_update_get_found st id inst :
  bookinstances st !! id = Some inst →
  let w := bookinstance_update_get {| params_id := id; req_body := () |} (on_page st) in
  page_db w = st ∧
  (∀ b, books st !! bi_book inst = Some b →
     ∃ bs,
       page_calls w =
         [RenderPage "bookinstance_form"
            [("title", Known (VText "資料更新"));
             ("book_list", VBooks bs);
             ("selected_book", Known (VId (bi_book inst)));
             ("bookinstance", Known (VPopulatedBookInstance
                (Some {| pbi_doc := (id, inst);
                         pbi_book := Some (bi_book inst, b) |})))]] ∧
       NoDup bs ∧ ∀ d, d ∈ bs ↔ books st !! d.1 = Some d.2) ∧
  (books st !! bi_book inst = None →
     page_calls w = [Sent (Next (TypeError "bookInstance.book is null"))] ∧
     pages_rendered (page_calls w) = []).
Proof.
  intros Hi w. subst w. unfold bookinstance_update_get. run_page.
  rewrite Hi; simpl. unfold populate_bookinstance; simpl.
  destruct (books st !! bi_book inst) as [b|] eqn:Hb; simpl.
  - split; [done|]. split; [|done].
    intros b' [= <-]. exists (map_to_list (books st)).
    rewrite filter_all. split; [done|]. split; [apply NoDup_map_to_list|].
    intros [j x]. apply elem_of_map_to_list.
  - split; [done|]. split; [done|]. by intros _.
Qed.

End PageProperties.

(** * Further properties of the handlers that write *)

Section MoreProperties.
Context `{L : Lib}.

Lemma too_short_cons path msg min v :
  (char_count (trim (toString v)) < min)%nat →
  too_short path msg min v =
    [{| err_path := path; err_msg := msg; err_value := Str (trim (toString v)) |}].
Proof.
  intros H. unfold too_short.
  by rewrite (proj2 (Nat.leb_gt _ _) H).
Qed.

Lemma too_short_nil_iff path msg min v :
  too_short path msg min v = [] ↔ (min ≤ char_count (trim (toString v)))%nat.
Proof.
  unfold too_short. destruct (min <=? _)%nat eqn:E.
  - by apply Nat.leb_le in E.
  - apply Nat.leb_gt in E. split; [done|lia].
Qed.

Lemma not_a_date_nil_iff v : not_a_date v = [] ↔ date_ok v.
Proof.
  split; [|apply not_a_date_nil].
  unfold not_a_date, date_ok.
  destruct (falsy v); [by left|]. destruct (isISO8601 _); [by right|done].
Qed.

(** X12: what validation accepts.  The validators of the book form leave no
    error exactly when title, author, summary and ISBN are each non-empty
    after trimming, whatever the genres are; those of the book instance
    form exactly when book and imprint are non-empty after trimming and the
    date is left out or passes [isISO8601]; those of the genre form exactly
    when the name keeps three characters or more after trimming.  Every
    error of the book form belongs to one of its four required fields. *)
Theorem validators_accept_iff (rb : Request BookBody) (ri : Request BookInstanceBody)
    (rg : Request GenreBody) :
  ((book_validators (normalize_genre rb)).2 = [] ↔
   filled (title (req_body rb)) ∧ filled (author (req_body rb)) ∧
   filled (summary (req_body rb)) ∧ filled (isbn (req_body rb))) ∧
  (∀ e, e ∈ (book_validators (normalize_genre rb)).2 →
        err_path e ∈ ["title"; "author"; "summary"; "isbn"]) ∧
  ((bookinstance_validators ri).2 = [] ↔
   filled (book (req_body ri)) ∧ filled (imprint (req_body ri)) ∧
   date_ok (due_back (req_body ri))) ∧
  ((genre_validators rg).2 = [] ↔
   (3 ≤ char_count (trim (toString (name (req_body rg)))))%nat).
Proof.
  split; [|split; [|split]].
  - rewrite book_validators_eq; simpl. unfold filled.
    rewrite !app_nil, !too_short_nil_iff. tauto.
  - rewrite book_validators_eq; simpl. intros e.
    rewrite !elem_of_app. intros [H|[H|[H|[H|H]]]];
      try (apply too_short_path in H; rewrite H; set_solver).
    by apply not_elem_of_nil in H.
  - rewrite bookinstance_validators_eq; simpl. unfold filled.
    rewrite !app_nil, !too_short_nil_iff, not_a_date_nil_iff. tauto.
  - rewrite genre_validators_eq; simpl. apply too_short_nil_iff.
Qed.

(** X13: a valid book is stored as submitted.  When the four required
    fields are filled in and the id of the new document is not yet stored,
    [book_create_post] stores under that id the trimmed and escaped fields
    with the escaped genres, changes no other book and no other collection,
    and its only call is the redirect to the URL of the new book. *)
Theorem book_create_post_stores st oid (req : Request BookBody) :
  filled (title (req_body req)) → filled (author (req_body req)) →
  filled (summary (req_body req)) → filled (isbn (req_body req)) →
  books st !! oid = None →
  let w := book_create_post oid req (on_store st) in
  books (db w) !! oid = Some (sanitized_book (req_body req)) ∧
  (∀ j, j ≠ oid → books (db w) !! j = books st !! j) ∧
  genres (db w) = genres st ∧ bookinstances (db w) = bookinstances st ∧
  authors (db w) = authors st ∧
  calls w = [Redirect (book_url oid)].
Proof.
  intros H1 H2 H3 H4 Hfresh w. subst w. unfold book_create_post.
  rewrite book_validators_eq.
  rewrite (too_short_nil _ _ _ _ H1), (too_short_nil _ _ _ _ H2),
    (too_short_nil _ _ _ _ H3), (too_short_nil _ _ _ _ H4).
  run_handler. rewrite Hfresh; simpl.
  split; [apply lookup_insert_eq|]. split; [|done].
  intros j Hne. by apply lookup_insert_ne.
Qed.

(** X14: a book form with an error is sent back and nothing is stored.
    When validation leaves an error, [book_create_post] and
    [book_update_post] each make one call, the page [book_form] with the
    errors, the entered values after sanitizing, every stored author and
    every stored genre in ascending order, a genre being marked as checked
    exactly when its id is among the escaped genres of the form.  The book
    of the update carries the id of the URL. *)
Theorem book_post_invalid st oid (req : Request BookBody) :
  let errors := (book_validators (normalize_genre req)).2 in
  let chosen := map escape (cast_refs (genre (req_body req))) in
  errors ≠ [] →
  ∃ la lg,
    book_create_post oid req (on_store st) =
      {| db := st;
         calls := [Render "book_form"
                     [("title", VText "書籍登録");
                      ("authors", VAuthors la);
                      ("genres", VGenres
                         (map (λ g : Doc Genre, (g, bool_decide (g.1 ∈ chosen))) lg));
                      ("book", VBook (oid, sanitized_book (req_body req)));
                      ("errors", VErrors errors)]] |} ∧
    book_update_post req (on_store st) =
      {| db := st;
         calls := [Render "book_form"
                     [("title", VText "書籍編集");
                      ("authors", VAuthors la);
                      ("genres", VGenres
                         (map (λ g : Doc Genre, (g, bool_decide (g.1 ∈ chosen))) lg));
                      ("book", VBook (params_id req, sanitized_book (req_body req)));
                      ("errors", VErrors errors)]] |} ∧
    Sorted (λ x y : Doc Author,
              String.leb (family_name x.2) (family_name y.2) = true) la ∧
    (∀ d, d ∈ la ↔ authors st !! d.1 = Some d.2) ∧
    Sorted (λ x y : Doc Genre,
              String.leb (genre_name x.2) (genre_name y.2) = true) lg ∧
    NoDup lg ∧ (∀ d, d ∈ lg ↔ genres st !! d.1 = Some d.2).
Proof.
  intros errors chosen Hne. subst errors chosen.
  exists (sort_asc family_name (map_to_list (authors st))),
         (sort_asc genre_name (map_to_list (genres st))).
  split; [|split].
  - unfold book_create_post. revert Hne. rewrite book_validators_eq. simpl.
    intros Hne.
    destruct (too_short _ _ _ _ ++ _) as [|e errors] eqn:E; [done|].
    unfold render_book_form. run_handler. by rewrite !filter_all.
  - unfold book_update_post. revert Hne. rewrite book_validators_eq. simpl.
    intros Hne.
    destruct (too_short _ _ _ _ ++ _) as [|e errors] eqn:E; [done|].
    unfold render_book_form. run_handler. by rewrite !filter_all.
  - repeat split; try apply sort_asc_Sorted; try apply NoDup_sort_asc_all;
      by apply elem_of_sort_asc_all.
Qed.

(** X15: a genre name that is too short is sent back.  When fewer than
    three characters remain after trimming, [genre_create_post] and
    [genre_update_post] store nothing and make one call, the page
    [genre_form] with the sanitized name and the error of the field [name];
    the create handler does not look for a genre of that name, and the
    genre of the update carries the id of the URL. *)
Theorem genre_post_too_short st oid (req : Request GenreBody) :
  (char_count (trim (toString (name (req_body req)))) < 3)%nat →
  let errors := [{| err_path := "name"; err_msg := "ジャンル名は3文字以上必要です";
                    err_value := Str (trim (toString (name (req_body req)))) |}] in
  genre_create_post oid req (on_store st) =
    {| db := st;
       calls := [Render "genre_form"
                   [("title", VText "ジャンル作成");
                    ("genre", VGenre (Some (oid, sanitized_genre (req_body req))));
                    ("errors", VErrors errors)]] |} ∧
  genre_update_post req (on_store st) =
    {| db := st;
       calls := [Render "genre_form"
                   [("title", VText "ジャンル更新");
                    ("genre", VGenre (Some (params_id req, sanitized_genre (req_body req))));
                    ("errors", VErrors errors)]] |}.
Proof.
  intros Hshort. simpl. split.
  - unfold genre_create_post.
    by rewrite genre_validators_eq, (too_short_cons _ _ _ _ Hshort).
  - unfold genre_update_post.
    by rewrite genre_validators_eq, (too_short_cons _ _ _ _ Hshort).
Qed.

(** X16: a book instance form with an error is sent back and nothing is
    stored.  When a book is selected and validation leaves an error,
    [bookinstance_create_post] and [bookinstance_update_post] each make one
    call, the page [bookinstance_form] with the errors, the sanitized values
    and the submitted book as the selected one; the instance of the update
    carries the id of the URL.  The create handler lists the books in
    ascending order of the titles, the update handler in the order of the
    store; both list every stored book once. *)
Theorem bookinstance_post_invalid st oid (req : Request BookInstanceBody) :
  let errors := (bookinstance_validators req).2 in
  filled (book (req_body req)) →
  errors ≠ [] →
  ∃ sorted_books stored_books : list (Doc Book),
    bookinstance_create_post oid req (on_store st) =
      {| db := st;
         calls := [Render "bookinstance_form"
                     [("title", VText "資料作成");
                      ("book_list", VBookTitles (book_titles sorted_books));
                      ("selected_book", VId (sanitized (book (req_body req))));
                      ("errors", VErrors errors);
                      ("bookinstance", VBookInstance
                         (oid, sanitized_bookinstance (req_body req)))]] |} ∧
    bookinstance_update_post req (on_store st) =
      {| db := st;
         calls := [Render "bookinstance_form"
                     [("title", VText "資料更新");
                      ("book_list", VBookTitles (book_titles stored_books));
                      ("selected_book", VId (sanitized (book (req_body req))));
                      ("errors", VErrors errors);
                      ("bookinstance", VBookInstance
                         (params_id req, sanitized_bookinstance (req_body req)))]] |} ∧
    Sorted (λ x y : Doc Book,
              String.leb (book_title x.2) (book_title y.2) = true) sorted_books ∧
    sorted_books ≡ₚ stored_books ∧ NoDup stored_books ∧
    ∀ d, d ∈ stored_books ↔ books st !! d.1 = Some d.2.
Proof.
  intros errors _ Hne. subst errors.
  exists (sort_asc book_title (map_to_list (books st))), (map_to_list (books st)).
  split; [|split].
  - unfold bookinstance_create_post. revert Hne.
    rewrite bookinstance_validators_eq. simpl. intros Hne.
    destruct (too_short _ _ _ _ ++ _) as [|e errors] eqn:E; [done|].
    run_handler. by rewrite !filter_all.
  - unfold bookinstance_update_post. revert Hne.
    rewrite bookinstance_validators_eq. simpl. intros Hne.
    destruct (too_short _ _ _ _ ++ _) as [|e errors] eqn:E; [done|].
    run_handler. by rewrite !filter_all.
  - split; [apply sort_asc_Sorted|]. split; [apply sort_asc_Permutation|].
    split; [apply NoDup_map_to_list|]. intros [i b]. apply elem_of_map_to_list.
Qed.

(** X17: updating under an id that is not stored.  With a valid form and
    no document under the id of the URL, no update handler stores anything.
    [genre_update_post] and [bookinstance_update_post] still answer with the
    redirect to the detail URL of that id; [book_update_post] reads the URL
    off the document found, which is [null], and its only call passes the
    exception to [next]. *)
Theorem update_post_missing_id st id :
  (∀ b : GenreBody,
     genres st !! id = None →
     (3 ≤ char_count (trim (toString (name b))))%nat →
     genre_update_post {| params_id := id; req_body := b |} (on_store st) =
       {| db := st; calls := [Redirect (genre_url id)] |}) ∧
  (∀ b : BookInstanceBody,
     bookinstances st !! id = None →
     filled (book b) → filled (imprint b) → date_ok (due_back b) →
     bookinstance_update_post {| params_id := id; req_body := b |} (on_store st) =
       {| db := st; calls := [Redirect (bookinstance_url id)] |}) ∧
  (∀ b : BookBody,
     books st !! id = None →
     filled (title b) → filled (author b) → filled (summary b) → filled (isbn b) →
     book_update_post {| params_id := id; req_body := b |} (on_store st) =
       {| db := st; calls := [Next (TypeError "thebook is null")] |}).
Proof.
  split; [|split].
  - intros b Hnone Hlen. unfold genre_update_post.
    rewrite genre_validators_eq. cbn [req_body params_id].
    rewrite (too_short_nil _ _ _ _ Hlen).
    run_handler. by rewrite Hnone.
  - intros b Hnone H1 H2 H3. unfold bookinstance_update_post.
    rewrite bookinstance_validators_eq. cbn [req_body params_id].
    rewrite (too_short_nil _ _ _ _ H1), (too_short_nil _ _ _ _ H2),
      (not_a_date_nil _ H3).
    run_handler. by rewrite Hnone.
  - intros b Hnone H1 H2 H3 H4. unfold book_update_post.
    rewrite book_validators_eq. cbn [req_body params_id].
    rewrite (too_short_nil _ _ _ _ H1), (too_short_nil _ _ _ _ H2),
      (too_short_nil _ _ _ _ H3), (too_short_nil _ _ _ _ H4).
    run_handler. by rewrite Hnone.
Qed.

Lemma genre_create_post_db st oid (req : Request GenreBody) :
  let n := sanitized (name (req_body req)) in
  db (genre_create_post oid req (on_store st)) = st ∨
  (genres st !! oid = None ∧
   (∀ id g, genres st !! id = Some g → collation_eq (genre_name g) n = false) ∧
   db (genre_create_post oid req (on_store st)) =
     with_collection GenreModel (<[oid := {| genre_name := n |}]> (genres st)) st).
Proof.
  intros n. unfold genre_create_post. rewrite genre_validators_eq. fold n.
  destruct (too_short _ _ _ _) as [|e errors]; [|by left].
  run_handler.
  destruct (head (List.filter
                    (λ g : Doc Genre, collation_eq (genre_name g.2) n)
                    (map_to_list (genres st)))) as [[id g]|] eqn:Hhead; [by left|].
  simpl. destruct (genres st !! oid) eqn:Hoid; [by left|].
  right. split; [done|]. split; [|done].
  intros id g Hid. apply (proj1 (head_find_None _ _) Hhead id g Hid).
Qed.

(** X18: creating genres keeps the names unique.  When the comparison of
    the collation is symmetric and no two stored genres have equal names
    under it, the same holds of the store after [genre_create_post],
    whatever is submitted and whatever id the new document is given. *)
Theorem genre_create_post_keeps_names_unique st oid (req : Request GenreBody) :
  (∀ a b, collation_eq a b = collation_eq b a) →
  unique_names st →
  unique_names (db (genre_create_post oid req (on_store st))).
Proof.
  intros Hsym Huniq.
  destruct (genre_create_post_db st oid req) as [->|(Hfresh & Hnone & ->)]; [done|].
  intros i j g h. simpl.
  destruct (decide (i = oid)) as [->|Hi], (decide (j = oid)) as [->|Hj]; [done|..].
  - rewrite lookup_insert_eq, lookup_insert_ne by done.
    intros [= <-] Hj' Heq. simpl in Heq.
    rewrite Hsym, (Hnone j h Hj') in Heq. done.
  - rewrite lookup_insert_eq, lookup_insert_ne by done.
    intros Hi' [= <-] Heq. simpl in Heq.
    rewrite (Hnone i g Hi') in Heq. done.
  - rewrite !lookup_insert_ne by done. apply Huniq.
Qed.

(** X19: renaming a genre is not checked against the other names.  When a
    valid name is submitted for a stored genre and another stored genre has
    a name equal to it under the collation, [genre_update_post] stores the
    name all the same and redirects, and the store then holds two genres
    with equal names. *)
Theorem genre_update_post_allows_duplicate st (req : Request GenreBody) i g :
  i ≠ params_id req →
  genres st !! i = Some g →
  is_Some (genres st !! params_id req) →
  (3 ≤ char_count (trim (toString (name (req_body req)))))%nat →
  collation_eq (genre_name g) (sanitized (name (req_body req))) = true →
  let w := genre_update_post req (on_store st) in
  calls w = [Redirect (genre_url (params_id req))] ∧
  genres (db w) !! i = Some g ∧
  genres (db w) !! params_id req = Some (sanitized_genre (req_body req)) ∧
  ¬ unique_names (db w).
Proof.
  intros Hne Hi Hsome Hlen Heq w. subst w.
  rewrite genre_update_post_valid by done. simpl.
  assert (Hi' : <[params_id req := sanitized_genre (req_body req)]> (genres st) !! i =
                Some g) by (by rewrite lookup_insert_ne).
  split; [done|]. split; [done|]. split; [apply lookup_insert_eq|].
  intros Huniq. apply Hne.
  apply (Huniq i (params_id req) g (sanitized_genre (req_body req))); simpl;
    [done|apply lookup_insert_eq|done].
Qed.

Lemma book_delete_post_db st (req : Request DeleteBody) :
  (db (book_delete_post req (on_store st)) = st) ∨
  (no_instances st (params_id req) ∧
   db (book_delete_post req (on_store st)) =
     with_collection BookModel (delete (body_id (req_body req)) (books st)) st).
Proof.
  destruct (List.filter (λ d : Doc BookInstance, bool_decide (bi_book d.2 = params_id req))
              (map_to_list (bookinstances st))) as [|d l] eqn:E.
  - right. assert (Hfree : no_instances st (params_id req)).
    { intros i inst Hi. pose proof (proj1 (find_nil _ _) E i inst Hi) as Hf.
      simpl in Hf. by apply bool_decide_eq_false in Hf. }
    split; [done|]. by rewrite (book_delete_post_free st req Hfree).
  - left. unfold book_delete_post, instances_of. run_handler. rewrite E. simpl.
    by destruct (books st !! params_id req).
Qed.

Lemma genre_delete_post_db st (req : Request DeleteBody) :
  (db (genre_delete_post req (on_store st)) = st) ∨
  (no_books_in_genre st (params_id req) ∧
   db (genre_delete_post req (on_store st)) =
     with_collection GenreModel (delete (body_id (req_body req)) (genres st)) st).
Proof.
  destruct (List.filter (λ d : Doc Book, bool_decide (params_id req ∈ book_genre d.2))
              (map_to_list (books st))) as [|d l] eqn:E.
  - right. assert (Hfree : no_books_in_genre st (params_id req)).
    { intros i b Hi. pose proof (proj1 (find_nil _ _) E i b Hi) as Hf.
      simpl in Hf. by apply bool_decide_eq_false in Hf. }
    split; [done|]. by rewrite (genre_delete_post_free st req Hfree).
  - left. unfold genre_delete_post, books_in_genre. run_handler. by rewrite E.
Qed.

(** X20: the guard of the delete keeps the references whole.  For a request
    that names the same id in the URL and in the hidden field: if every
    instance refers to a stored book, so it is after [book_delete_post]; if
    every genre a book lists is stored, so it is after [genre_delete_post];
    and [bookinstance_delete_post] keeps both, for every request. *)
Theorem delete_post_keeps_references st (req : Request DeleteBody) :
  body_id (req_body req) = params_id req →
  (instances_have_books st →
   instances_have_books (db (book_delete_post req (on_store st)))) ∧
  (books_have_genres st →
   books_have_genres (db (genre_delete_post req (on_store st)))) ∧
  (instances_have_books st →
   instances_have_books (db (bookinstance_delete_post req (on_store st)))) ∧
  (books_have_genres st →
   books_have_genres (db (bookinstance_delete_post req (on_store st)))).
Proof.
  intros Hsame. split; [|split; [|split]].
  - intros Hinv.
    destruct (book_delete_post_db st req) as [->|[Hfree ->]]; [done|].
    intros i inst Hi. simpl in *. rewrite Hsame.
    rewrite lookup_delete_ne by (by intros Heq; apply (Hfree i inst Hi)).
    by apply (Hinv i).
  - intros Hinv.
    destruct (genre_delete_post_db st req) as [->|[Hfree ->]]; [done|].
    intros i b g Hi Hg. simpl in *. rewrite Hsame.
    rewrite lookup_delete_ne by (intros <-; by apply (Hfree i b Hi)).
    by apply (Hinv i b).
  - intros Hinv i inst. unfold bookinstance_delete_post. run_handler.
    intros Hi. apply lookup_delete_Some in Hi as [_ Hi]. by apply (Hinv i).
  - intros Hinv. unfold bookinstance_delete_post. run_handler. apply Hinv.
Qed.

(** X21: the book of a new instance is not looked up.  When the form is
    valid, the id of the new document is not stored and no book is stored
    under the submitted book id, [bookinstance_create_post] stores the
    instance all the same and redirects to it: the store then holds an
    instance that refers to no stored book. *)
Theorem bookinstance_create_post_unchecked_book st oid (req : Request BookInstanceBody) :
  filled (book (req_body req)) → filled (imprint (req_body req)) →
  date_ok (due_back (req_body req)) →
  bookinstances st !! oid = None →
  books st !! sanitized (book (req_body req)) = None →
  let w := bookinstance_create_post oid req (on_store st) in
  calls w = [Redirect (bookinstance_url oid)] ∧
  bookinstances (db w) !! oid = Some (sanitized_bookinstance (req_body req)) ∧
  books (db w) = books st ∧
  ¬ instances_have_books (db w).
Proof.
  intros H1 H2 H3 Hfresh Hnone w. subst w.
  rewrite bookinstance_create_post_valid by done. simpl.
  split; [done|]. split; [apply lookup_insert_eq|]. split; [done|].
  intros Hinv.
  destruct (Hinv oid (sanitized_bookinstance (req_body req))) as [b Hb]; simpl.
  - apply lookup_insert_eq.
  - cbn [books with_collection BookInstanceModel bi_book sanitized_bookinstance] in Hb.
    change (books st !! sanitized (book (req_body req)) = Some b) in Hb.
    by rewrite Hnone in Hb.
Qed.

(** X22: a delete posted for a URL id that is not stored.  When nothing
    refers to that id, [genre_delete_post] deletes the document named by the
    hidden field and redirects once; [book_delete_post] redirects on finding
    no book, goes on to delete the document named by the hidden field and
    calls the redirect a second time, which throws on the response already
    sent, so that its last call passes that exception to [next].  When
    instances still refer to the missing book,
    [book_delete_post] deletes nothing, redirects and then also renders the
    confirmation page with the book [null]. *)
Theorem delete_post_unknown_id st (req : Request DeleteBody) :
  (genres st !! params_id req = None → no_books_in_genre st (params_id req) →
     genre_delete_post req (on_store st) =
       {| db := with_collection GenreModel
                  (delete (body_id (req_body req)) (genres st)) st;
          calls := [Redirect "/catalog/genres"] |}) ∧
  (books st !! params_id req = None → no_instances st (params_id req) →
     book_delete_post req (on_store st) =
       {| db := with_collection BookModel
                  (delete (body_id (req_body req)) (books st)) st;
          calls := [Redirect "/catalog/books"; Redirect "/catalog/books";
                    Next HeadersSent] |}) ∧
  (∀ i inst,
     books st !! params_id req = None →
     bookinstances st !! i = Some inst → bi_book inst = params_id req →
     ∃ insts,
       (i, inst) ∈ insts ∧
       book_delete_post req (on_store st) =
         {| db := st;
            calls := [Redirect "/catalog/books";
                      Render "book_delete"
                        [("title", VText "書籍削除");
                         ("book", VPopulatedBook None);
                         ("book_instances", VBookInstances insts)]] |}).
Proof.
  split; [|split].
  - intros _ Hfree. by apply genre_delete_post_free.
  - intros Hnone Hfree. rewrite (book_delete_post_free st req Hfree).
    by rewrite Hnone.
  - intros i inst Hnone Hi Href.
    exists (List.filter
              (λ d : Doc BookInstance, bool_decide (bi_book d.2 = params_id req))
              (map_to_list (bookinstances st))).
    split.
    + apply (elem_of_find _ _ (i, inst)). split; [done|].
      by apply bool_decide_eq_true.
    + unfold book_delete_post, instances_of. run_handler.
      rewrite Hnone; simpl.
      rewrite (find_cons (bookinstances st) _ i inst Hi); [done|].
      by apply bool_decide_eq_true.
Qed.

End MoreProperties.

(** * How the handlers compose *)

Section Composition.
Context `{L : Lib}.

(** X23: a genre that was just created is found by its detail page.  After
    [genre_create_post] has stored a valid name under a fresh id, no stored
    name being equal to it, [genre_detail] for that id renders the page
    [genre_detail] with the genre under its sanitized name; its list of
    books is empty when no stored book lists that id. *)
Theorem genre_create_then_detail st oid (req : Request GenreBody) :
  let n := sanitized (name (req_body req)) in
  (3 ≤ char_count (trim (toString (name (req_body req)))))%nat →
  (∀ id g, genres st !! id = Some g → collation_eq (genre_name g) n = false) →
  genres st !! oid = None →
  let st' := db (genre_create_post oid req (on_store st)) in
  ∃ bks,
    genre_detail {| params_id := oid; req_body := () |} (on_page st') =
      {| page_db := st';
         page_calls := [RenderPage "genre_detail"
                          [("title", Known (VText "ジャンル詳細"));
                           ("genre", Known (VGenre (Some (oid, {| genre_name := n |}))));
                           ("genre_books", Known (VBookSummaries bks))]] |} ∧
    (no_books_in_genre st oid → bks = []).
Proof.
  intros n Hlen Hnone Hfresh st'.
  assert (Hdb : st' = with_collection GenreModel
                        (<[oid := {| genre_name := n |}]> (genres st)) st).
  { subst st'. unfold genre_create_post.
    rewrite genre_validators_eq, (too_short_nil _ _ _ _ Hlen). fold n.
    run_handler.
    rewrite (proj2 (head_find_None (genres st)
                      (λ g : Doc Genre, collation_eq (genre_name g.2) n))); [|done].
    simpl. by rewrite Hfresh. }
  rewrite Hdb. eexists. split.
  - apply genre_detail_stored. simpl. apply lookup_insert_eq.
  - intros Hfree. simpl. by rewrite (books_in_genre_nil st oid Hfree).
Qed.

(** X24: what was deleted is no longer found.  After [genre_delete_post]
    for a genre no book lists, and after [book_delete_post] for a book no
    instance refers to, both posted with the same id in the URL and in the
    hidden field, and after [bookinstance_delete_post] in every case, the
    detail page of that id answers with the error of status 404. *)
Theorem delete_then_detail st id :
  let req := {| params_id := id; req_body := {| body_id := id |} |} in
  let page := {| params_id := id; req_body := () |} in
  (no_books_in_genre st id →
     page_calls (genre_detail page (on_page (db (genre_delete_post req (on_store st))))) =
       [NextError 404 "ジャンルが見つかりません"]) ∧
  (no_instances st id →
     page_calls (book_detail page (on_page (db (book_delete_post req (on_store st))))) =
       [NextError 404 "書籍が見つかりません"]) ∧
  page_calls (bookinstance_detail page
                (on_page (db (bookinstance_delete_post req (on_store st))))) =
    [NextError 404 "資料が見つかりません"].
Proof.
  intros req page. split; [|split].
  - intros Hfree. subst page. rewrite genre_detail_missing; [done|].
    rewrite (genre_delete_post_free st req Hfree). simpl. apply lookup_delete_eq.
  - intros Hfree. subst page. rewrite book_detail_missing; [done|].
    rewrite (book_delete_post_free st req Hfree). simpl. apply lookup_delete_eq.
  - subst page. rewrite bookinstance_detail_missing; [done|].
    unfold bookinstance_delete_post. run_handler. apply lookup_delete_eq.
Qed.

End Composition.

(** * The further theorems at the sample catalogue *)

Section MoreWitnesses.
Import Sample.

Lemma detail_missing_id_witness :
  genre_detail (get zz) (on_page library) =
    {| page_db := library; page_calls := [NextError 404 "ジャンルが見つかりません"] |} ∧
  book_detail (get zz) (on_page library) =
    {| page_db := library; page_calls := [NextError 404 "書籍が見つかりません"] |} ∧
  bookinstance_detail (get zz) (on_page library) =
    {| page_db := library; page_calls := [NextError 404 "資料が見つかりません"] |}.
Proof.
  destruct (detail_missing_id library zz) as (Hgenre & Hbook & Hcopy).
  split; [exact (Hgenre eq_refl)|]. split; [exact (Hbook eq_refl)|exact (Hcopy eq_refl)].
Defined.

Lemma update_get_missing_id_witness :
  genre_update_get (get zz) (on_page library) =
    {| page_db := library; page_calls := [NextError 404 "ジャンルが見つかりません"] |} ∧
  book_update_get (get zz) (on_page library) =
    {| page_db := library; page_calls := [NextError 404 "書籍が見つかりません"] |} ∧
  bookinstance_update_get (get zz) (on_page library) =
    {| page_db := library; page_calls := [NextError 404 "資料が見つかりません"] |}.
Proof.
  destruct (update_get_missing_id library zz) as (Hgenre & Hbook & Hcopy).
  split; [exact (Hgenre eq_refl)|]. split; [exact (Hbook eq_refl)|exact (Hcopy eq_refl)].
Defined.

Lemma genre_detail_found_witness :
  ∃ bks,
    genre_detail (get g1) (on_page library) =
      {| page_db := library;
         page_calls := [RenderPage "genre_detail"
                          [("title", Known (VText "ジャンル詳細"));
                           ("genre", Known (VGenre (Some (g1, {| genre_name := "Fantasy" |}))));
                           ("genre_books", Known (VBookSummaries bks))]] |} ∧
    (b1, ("The Hobbit", "There and back again")) ∈ bks.
Proof.
  destruct (genre_detail_found library g1 {| genre_name := "Fantasy" |} eq_refl)
    as (bks & Hrun & Hbks).
  exists bks. split; [exact Hrun|].
  apply Hbks. exists hobbit. split; [reflexivity|]. split; [left|].
  split; reflexivity.
Defined.

Lemma book_detail_found_witness :
  ∃ insts,
    book_detail (get b1) (on_page library) =
      {| page_db := library;
         page_calls := [RenderPage "book_detail"
                          [("title", Known (VText "The Hobbit"));
                           ("book", Known (VPopulatedBook
                                             (Some (populate_book library (b1, hobbit)))));
                           ("book_instances", Known (VBookInstances insts))]] |} ∧
    (i1, copy) ∈ insts.
Proof.
  destruct (book_detail_found library b1 hobbit eq_refl) as (insts & Hrun & Hin & _).
  exists insts. split; [exact Hrun|].
  apply Hin. split; reflexivity.
Defined.

Lemma book_update_get_checked_witness :
  ∃ la lg,
    book_update_get (get b1) (on_page library) =
      {| page_db := library;
         page_calls := [RenderPage "book_form"
                          [("title", Known (VText "書籍編集"));
                           ("authors", Known (VAuthors la));
                           ("genres", Known (VGenres
                              (map (λ g : Doc Genre,
                                      (g, bool_decide (g.1 ∈ book_genre hobbit))) lg)));
                           ("book", VBookWithAuthor (b1, hobbit)
                              (pair (book_author hobbit) <$>
                                 authors library !! book_author hobbit))]] |} ∧
    (g1, {| genre_name := "Fantasy" |}) ∈ lg ∧ (g2, {| genre_name := "Poetry" |}) ∈ lg.
Proof.
  destruct (book_update_get_checked library b1 hobbit eq_refl)
    as (la & lg & Hrun & _ & _ & _ & _ & Hin).
  exists la, lg. split; [exact Hrun|].
  split; apply Hin; reflexivity.
Defined.

Lemma bookinstance_update_get_found_witness :
  (∃ bs, page_calls (bookinstance_update_get (get i1) (on_page library)) =
     [RenderPage "bookinstance_form"
        [("title", Known (VText "資料更新"));
         ("book_list", VBooks bs);
         ("selected_book", Known (VId b1));
         ("bookinstance", Known (VPopulatedBookInstance
            (Some {| pbi_doc := (i1, copy); pbi_book := Some (b1, hobbit) |})))]]) ∧
  page_calls (bookinstance_update_get (get i1) (on_page orphans)) =
    [Sent (Next (TypeError "bookInstance.book is null"))].
Proof.
  split.
  - destruct (bookinstance_update_get_found library i1 copy eq_refl) as (_ & Hfound & _).
    destruct (Hfound hobbit eq_refl) as (bs & Hcalls & _).
    exists bs. exact Hcalls.
  - destruct (bookinstance_update_get_found orphans i1 copy eq_refl) as (_ & _ & Hnone).
    destruct (Hnone eq_refl) as [Hcalls _]. exact Hcalls.
Defined.

Lemma validators_accept_iff_witness :
  (book_validators (normalize_genre (book_form unused "Roverandom" GUndefined))).2 = [] ∧
  (bookinstance_validators (copy_form unused "Loaned" (Str "2024-02-29"))).2 = [] ∧
  (genre_validators (genre_form unused "Sci-Fi")).2 = [].
Proof.
  destruct (validators_accept_iff (book_form unused "Roverandom" GUndefined)
              (copy_form unused "Loaned" (Str "2024-02-29"))
              (genre_form unused "Sci-Fi")) as (Hbook & _ & Hcopy & Hgenre).
  split; [|split].
  - apply Hbook. repeat split; vm_compute; lia.
  - apply Hcopy. split; [vm_compute; lia|]. split; [vm_compute; lia|].
    right. reflexivity.
  - apply Hgenre. vm_compute. lia.
Defined.

Lemma book_create_post_stores_witness :
  books (db (book_create_post b9 (book_form unused " Roverandom " (GScalar g2))
               (on_store library))) !! b9 =
    Some {| book_title := "Roverandom"; book_author := a1; book_summary := "A tale";
            book_isbn := "12345"; book_genre := [g2] |} ∧
  calls (book_create_post b9 (book_form unused " Roverandom " (GScalar g2))
           (on_store library)) = [Redirect ("/catalog/book/" +:+ b9)].
Proof.
  destruct (book_create_post_stores library b9
              (book_form unused " Roverandom " (GScalar g2)))
    as (Hstored & _ & _ & _ & _ & Hcalls);
    [vm_compute; lia|vm_compute; lia|vm_compute; lia|vm_compute; lia|reflexivity|].
  split; [exact Hstored|exact Hcalls].
Defined.

Lemma book_post_invalid_witness :
  ∃ la lg,
    book_update_post (book_form b2 "  " (GArray [g1; zz])) (on_store library) =
      {| db := library;
         calls := [Render "book_form"
                     [("title", VText "書籍編集");
                      ("authors", VAuthors la);
                      ("genres", VGenres
                         (map (λ g : Doc Genre, (g, bool_decide (g.1 ∈ [g1; zz]))) lg));
                      ("book", VBook (b2, sanitized_book
                                            (req_body (book_form b2 "  " (GArray [g1; zz])))));
                      ("errors", VErrors
                         [{| err_path := "title"; err_msg := "タイトルは必須です";
                             err_value := Str EmptyString |}])]] |} ∧
    (g1, {| genre_name := "Fantasy" |}) ∈ lg.
Proof.
  destruct (book_post_invalid library b9 (book_form b2 "  " (GArray [g1; zz])))
    as (la & lg & _ & Hupdate & _ & _ & _ & _ & Hin); [discriminate|].
  exists la, lg. split; [exact Hupdate|].
  apply Hin. reflexivity.
Defined.

Lemma genre_post_too_short_witness :
  genre_create_post g9 (genre_form unused " ab ") (on_store library) =
    {| db := library;
       calls := [Render "genre_form"
                   [("title", VText "ジャンル作成");
                    ("genre", VGenre (Some (g9, {| genre_name := "ab" |})));
                    ("errors", VErrors
                       [{| err_path := "name"; err_msg := "ジャンル名は3文字以上必要です";
                           err_value := Str "ab" |}])]] |}.
Proof.
  assert (Hshort : (char_count (trim (toString (Str " ab "))) < 3)%nat)
    by (vm_compute; lia).
  destruct (genre_post_too_short library g9 (genre_form unused " ab ") Hshort)
    as [Hcreate _].
  exact Hcreate.
Defined.

Lemma bookinstance_post_invalid_witness :
  ∃ stored_books : list (Doc Book),
    bookinstance_update_post (copy_form i1 "Loaned" (Str "tomorrow")) (on_store library) =
      {| db := library;
         calls := [Render "bookinstance_form"
                     [("title", VText "資料更新");
                      ("book_list", VBookTitles (book_titles stored_books));
                      ("selected_book", VId b1);
                      ("errors", VErrors
                         [{| err_path := "due_back"; err_msg := "無効な日付形式です";
                             err_value := Str "tomorrow" |}]);
                      ("bookinstance", VBookInstance
                         (i1, {| bi_book := b1; bi_imprint := "Folio, 1979";
                                 bi_status := "Loaned"; bi_due_back := None |}))]] |}.
Proof.
  destruct (bookinstance_post_invalid library i9
              (copy_form i1 "Loaned" (Str "tomorrow")))
    as (sorted_books & stored_books & _ & Hupdate & _);
    [vm_compute; lia|discriminate|].
  exists stored_books. exact Hupdate.
Defined.

Lemma update_post_missing_id_witness :
  genre_update_post (genre_form zz "Verse") (on_store library) =
    {| db := library; calls := [Redirect ("/catalog/genre/" +:+ zz)] |} ∧
  bookinstance_update_post (copy_form zz "Loaned" Undefined) (on_store library) =
    {| db := library; calls := [Redirect ("/catalog/bookinstance/" +:+ zz)] |} ∧
  book_update_post (book_form zz "Roverandom" GUndefined) (on_store library) =
    {| db := library; calls := [Next (TypeError "thebook is null")] |}.
Proof.
  destruct (update_post_missing_id library zz) as (Hgenre & Hcopy & Hbook).
  split; [|split].
  - apply (Hgenre {| name := Str "Verse" |}); [reflexivity|vm_compute; lia].
  - apply (Hcopy (req_body (copy_form zz "Loaned" Undefined)));
      [reflexivity|vm_compute; lia|vm_compute; lia|left; reflexivity].
  - apply (Hbook (req_body (book_form zz "Roverandom" GUndefined)));
      [reflexivity|vm_compute; lia..].
Defined.

Lemma library_names_unique : unique_names library.
Proof.
  assert (H : map_Forall
                (λ (i : ObjectId) g,
                   map_Forall
                     (λ (j : ObjectId) h,
                        collation_eq (genre_name g) (genre_name h) = true → i = j)
                     (genres library))
                (genres library)).
  { apply (bool_decide_unpack _). vm_compute. exact I. }
  intros i j g h Hi Hj Heq. exact (H i g Hi j h Hj Heq).
Qed.

Lemma genre_create_post_keeps_names_unique_witness :
  unique_names (db (genre_create_post g9 (genre_form unused "FANTASY") (on_store library))) ∧
  unique_names (db (genre_create_post g9 (genre_form unused "Sci-Fi") (on_store library))).
Proof.
  split; apply genre_create_post_keeps_names_unique;
    try (intros a b; apply String.eqb_sym); exact library_names_unique.
Defined.

Lemma genre_update_post_allows_duplicate_witness :
  genres (db (genre_update_post (genre_form g2 " fantasy ") (on_store library))) !! g1 =
    Some {| genre_name := "Fantasy" |} ∧
  genres (db (genre_update_post (genre_form g2 " fantasy ") (on_store library))) !! g2 =
    Some {| genre_name := "fantasy" |} ∧
  ¬ unique_names (db (genre_update_post (genre_form g2 " fantasy ") (on_store library))).
Proof.
  destruct (genre_update_post_allows_duplicate library (genre_form g2 " fantasy ")
              g1 {| genre_name := "Fantasy" |})
    as (_ & Hkept & Hrenamed & Hdup).
  - discriminate.
  - reflexivity.
  - exists {| genre_name := "Poetry" |}. reflexivity.
  - vm_compute. lia.
  - reflexivity.
  - split; [exact Hkept|]. split; [exact Hrenamed|exact Hdup].
Defined.

Lemma library_instances_have_books : instances_have_books library.
Proof.
  apply (bool_decide_unpack (map_Forall _ (bookinstances library))).
  vm_compute. exact I.
Qed.

Lemma delete_post_keeps_references_witness :
  instances_have_books (db (book_delete_post (delete_form b1 b1) (on_store library))) ∧
  instances_have_books (db (book_delete_post (delete_form b2 b2) (on_store library))).
Proof.
  split.
  - destruct (delete_post_keeps_references library (delete_form b1 b1) eq_refl)
      as [Hbook _].
    exact (Hbook library_instances_have_books).
  - destruct (delete_post_keeps_references library (delete_form b2 b2) eq_refl)
      as [Hbook _].
    exact (Hbook library_instances_have_books).
Defined.

Lemma bookinstance_create_post_unchecked_book_witness :
  calls (bookinstance_create_post i9 (copy_form unused "Available" Undefined)
           (on_store empty_store)) = [Redirect ("/catalog/bookinstance/" +:+ i9)] ∧
  ¬ instances_have_books
      (db (bookinstance_create_post i9 (copy_form unused "Available" Undefined)
             (on_store empty_store))).
Proof.
  destruct (bookinstance_create_post_unchecked_book empty_store i9
              (copy_form unused "Available" Undefined))
    as (Hcalls & _ & _ & Hbroken);
    [vm_compute; lia|vm_compute; lia|left; reflexivity|reflexivity|reflexivity|].
  split; [exact Hcalls|exact Hbroken].
Defined.

Lemma delete_post_unknown_id_witness :
  calls (book_delete_post (delete_form zz b2) (on_store library)) =
    [Redirect "/catalog/books"; Redirect "/catalog/books"; Next HeadersSent] ∧
  books (db (book_delete_post (delete_form zz b2) (on_store library))) !! b2 = None ∧
  ∃ insts,
    book_delete_post (delete_form b1 b1) (on_store orphans) =
      {| db := orphans;
         calls := [Redirect "/catalog/books";
                   Render "book_delete"
                     [("title", VText "書籍削除");
                      ("book", VPopulatedBook None);
                      ("book_instances", VBookInstances insts)]] |}.
Proof.
  split; [|split].
  - destruct (delete_post_unknown_id library (delete_form zz b2)) as (_ & Hbook & _).
    rewrite Hbook; [reflexivity|reflexivity|].
    apply (bool_decide_unpack (map_Forall _ (bookinstances library))).
    vm_compute. exact I.
  - destruct (delete_post_unknown_id library (delete_form zz b2)) as (_ & Hbook & _).
    rewrite Hbook; [apply lookup_delete_eq|reflexivity|].
    apply (bool_decide_unpack (map_Forall _ (bookinstances library))).
    vm_compute. exact I.
  - destruct (delete_post_unknown_id orphans (delete_form b1 b1)) as (_ & _ & Hdangling).
    destruct (Hdangling i1 copy eq_refl eq_refl eq_refl) as (insts & _ & Hrun).
    exists insts. exact Hrun.
Defined.

Lemma genre_create_then_detail_witness :
  ∃ bks,
    genre_detail (get g9)
      (on_page (db (genre_create_post g9 (genre_form unused "Sci-Fi") (on_store library)))) =
      {| page_db := db (genre_create_post g9 (genre_form unused "Sci-Fi") (on_store library));
         page_calls := [RenderPage "genre_detail"
                          [("title", Known (VText "ジャンル詳細"));
                           ("genre", Known (VGenre (Some (g9, {| genre_name := "Sci-Fi" |}))));
                           ("genre_books", Known (VBookSummaries bks))]] |} ∧
    bks = [].
Proof.
  assert (Hlen : (3 ≤ char_count (trim (toString (Str "Sci-Fi"))))%nat)
    by (vm_compute; lia).
  destruct (genre_create_then_detail library g9 (genre_form unused "Sci-Fi") Hlen)
    as (bks & Hrun & Hempty).
  - apply (bool_decide_unpack (map_Forall _ (genres library))).
    vm_compute. exact I.
  - reflexivity.
  - exists bks. split; [exact Hrun|]. apply Hempty.
    apply (bool_decide_unpack (map_Forall _ (books library))).
    vm_compute. exact I.
Defined.

Lemma delete_then_detail_witness :
  page_calls (genre_detail (get g2)
                (on_page (db (genre_delete_post (delete_form g2 g2) (on_store library))))) =
    [NextError 404 "ジャンルが見つかりません"] ∧
  page_calls (book_detail (get b2)
                (on_page (db (book_delete_post (delete_form b2 b2) (on_store library))))) =
    [NextError 404 "書籍が見つかりません"].
Proof.
  split.
  - destruct (delete_then_detail library g2) as (Hgenre & _ & _).
    apply Hgenre.
    apply (bool_decide_unpack (map_Forall _ (books library))).
    vm_compute. exact I.
  - destruct (delete_then_detail library b2) as (_ & Hbook & _).
    apply Hbook.
    apply (bool_decide_unpack (map_Forall _ (bookinstances library))).
    vm_compute. exact I.
Defined.

End MoreWitnesses.
